(** * SWMM report extraction: [parse_swmm_results] (swmm_tools.py)

    A shallow embedding of the line-by-line report parser and of the
    Python string primitives it is written with, followed by the
    properties of the extraction engine.

    Text is modelled with [string]; a character is a code point below 256.
    The value of [float(...)] is kept abstract: the engine is parametric in
    the type [F] of floats, in the parser [pyfloat] (the builtin [float],
    [None] standing for [ValueError]) and in the comparison [flt] (Python's
    [<] on floats).  A concrete reading of plain decimal literals is given
    at the end for runs on concrete reports. *)

From Stdlib Require Import List String Ascii Bool Arith Lia.
From Stdlib Require Import Permutation Sorted ZArith QArith.
Import ListNotations.
Close Scope Q_scope.
Open Scope string_scope.
Open Scope list_scope.

(** ** Python string primitives *)

Module Py.

(** [str.isspace] on one character: the Unicode white space below 256. *)
Definition isspace (c : ascii) : bool :=
  let n := nat_of_ascii c in
  (((9 <=? n) && (n <=? 13)) || ((28 <=? n) && (n <=? 32))
   || (n =? 133) || (n =? 160))%nat.

(** [str.isdigit] on one character: 0-9 and the superscript digits
    U+00B2, U+00B3, U+00B9. *)
Definition isdigit (c : ascii) : bool :=
  let n := nat_of_ascii c in
  (((48 <=? n) && (n <=? 57)) || (n =? 178) || (n =? 179) || (n =? 185))%nat.

Fixpoint all_chars (p : ascii -> bool) (s : string) : bool :=
  match s with
  | EmptyString => true
  | String c s' => p c && all_chars p s'
  end.

(** [s.isdigit()]: every character is a digit and there is at least one. *)
Definition str_isdigit (s : string) : bool :=
  match s with
  | EmptyString => false
  | _ => all_chars isdigit s
  end.

Fixpoint lstrip (s : string) : string :=
  match s with
  | EmptyString => EmptyString
  | String c s' => if isspace c then lstrip s' else s
  end.

Fixpoint rstrip (s : string) : string :=
  match s with
  | EmptyString => EmptyString
  | String c s' =>
      match rstrip s' with
      | EmptyString => if isspace c then EmptyString else String c EmptyString
      | r => String c r
      end
  end.

(** [s.strip()] *)
Definition strip (s : string) : string := rstrip (lstrip s).

(** [not s]: the truth value of a string is whether it is non-empty. *)
Definition falsy (s : string) : bool :=
  match s with EmptyString => true | _ => false end.

(** [s.split()]: the maximal runs of non-space characters, in order. *)
Fixpoint split (s : string) : list string :=
  match s with
  | EmptyString => []
  | String c s' =>
      if isspace c then split s'
      else
        match s' with
        | EmptyString => [String c EmptyString]
        | String c' _ =>
            if isspace c' then String c EmptyString :: split s'
            else
              match split s' with
              | w :: ws => String c w :: ws
              | [] => [String c EmptyString]
              end
        end
  end.

(** [needle in hay] *)
Fixpoint contains (needle hay : string) : bool :=
  if prefix needle hay then true
  else
    match hay with
    | EmptyString => false
    | String _ hay' => contains needle hay'
    end.

(** [s.replace(c, '', 1)]: the first occurrence of [c] removed. *)
Fixpoint remove_first (c : ascii) (s : string) : string :=
  match s with
  | EmptyString => EmptyString
  | String d s' => if Ascii.eqb d c then s' else String d (remove_first c s')
  end.

(** [l[-1]]: [None] stands for [IndexError]. *)
Definition last_item {A : Type} (l : list A) : option A :=
  match rev l with
  | [] => None
  | x :: _ => Some x
  end.

(** [l[i]] for an index known to be in range; out of range the caller
    never looks at the value. *)
Definition item (l : list string) (i : nat) : string := nth i l EmptyString.

(** [l.sort(key=key, reverse=True)]: a stable sort into descending key
    order that compares keys with [<] only.  Elements are inserted from
    the right, and an element moves past the ones before which it is
    strictly smaller, so elements whose keys compare equal keep their
    relative order.  This is the list Python returns whenever [<] is a
    strict weak order on the keys; with a NaN among the keys the list
    Python returns depends on its algorithm and can be another one. *)
Section Sort.
Context {A K : Type} (lt : K -> K -> bool) (key : A -> K).

Fixpoint insert_desc (x : A) (l : list A) : list A :=
  match l with
  | [] => [x]
  | y :: l' => if lt (key x) (key y) then y :: insert_desc x l' else x :: l
  end.

Definition sort_desc (l : list A) : list A := fold_right insert_desc [] l.
End Sort.

End Py.

(** ** The extraction engine *)

(** The exceptions the loop body can raise, and the one the file object
    can raise while it is read. *)
Inductive exn : Type :=
| ValueError (token : string)   (* float(token) failed *)
| IndexError                    (* parts[-1] on an empty list *)
| OSError (detail : string).    (* open or read failed *)

Inductive exc (A : Type) : Type :=
| Ok (a : A)
| Raise (e : exn).
Arguments Ok {A} a.
Arguments Raise {A} e.

Definition bind {A B : Type} (m : exc A) (f : A -> exc B) : exc B :=
  match m with
  | Ok a => f a
  | Raise e => Raise e
  end.

Notation "x <- m ;; k" := (bind m (fun x => k))
  (at level 61, m at next level, right associativity).

(** What a path holds: nothing, or a text file whose lines are read in
    order until the end of the file or until reading fails. *)
Inductive file : Type :=
| Missing
| Text (lines : list string) (failure : option string).

Definition continuity_label : string := "Continuity Error (%)".
Definition flooding_marker : string := "Node Flooding Summary".
Definition surcharge_marker : string := "Conduit Surcharge Summary".

(** A [pandas.DataFrame]: its column labels and its rows in order. *)
Record DataFrame (A : Type) : Type := {
  columns : list string;
  rows : list A
}.
Arguments columns {A} d.
Arguments rows {A} d.

Section Engine.

Variable F : Type.
Variable pyfloat : string -> option F.
Variable flt : F -> F -> bool.

(** [{"node": ..., "MaxFloodingRate": ..., "TotalFloodVol": ...}] *)
Record FloodRecord : Type := {
  node : string;
  MaxFloodingRate : F;
  TotalFloodVol : F
}.

(** [{"link": ..., "HoursSurcharged": ..., "HoursAboveFullNormal": ...}] *)
Record SurchargeRecord : Type := {
  link : string;
  HoursSurcharged : F;
  HoursAboveFullNormal : F
}.

(** The local variables of the loop. *)
Record state : Type := {
  continuity_error_runoff : option F;
  continuity_error_routing : option F;
  in_flooding_table : bool;
  in_surcharge_table : bool;
  flooded_nodes : list FloodRecord;
  surcharged_links : list SurchargeRecord
}.

Definition initial : state := {|
  continuity_error_runoff := None;
  continuity_error_routing := None;
  in_flooding_table := false;
  in_surcharge_table := false;
  flooded_nodes := [];
  surcharged_links := []
|}.

Definition set_in_flooding (b : bool) (s : state) : state := {|
  continuity_error_runoff := continuity_error_runoff s;
  continuity_error_routing := continuity_error_routing s;
  in_flooding_table := b;
  in_surcharge_table := in_surcharge_table s;
  flooded_nodes := flooded_nodes s;
  surcharged_links := surcharged_links s
|}.

Definition set_in_surcharge (b : bool) (s : state) : state := {|
  continuity_error_runoff := continuity_error_runoff s;
  continuity_error_routing := continuity_error_routing s;
  in_flooding_table := in_flooding_table s;
  in_surcharge_table := b;
  flooded_nodes := flooded_nodes s;
  surcharged_links := surcharged_links s
|}.

Definition append_flooded (r : FloodRecord) (s : state) : state := {|
  continuity_error_runoff := continuity_error_runoff s;
  continuity_error_routing := continuity_error_routing s;
  in_flooding_table := in_flooding_table s;
  in_surcharge_table := in_surcharge_table s;
  flooded_nodes := flooded_nodes s ++ [r];
  surcharged_links := surcharged_links s
|}.

Definition append_surcharged (r : SurchargeRecord) (s : state) : state := {|
  continuity_error_runoff := continuity_error_runoff s;
  continuity_error_routing := continuity_error_routing s;
  in_flooding_table := in_flooding_table s;
  in_surcharge_table := in_surcharge_table s;
  flooded_nodes := flooded_nodes s;
  surcharged_links := surcharged_links s ++ [r]
|}.

(** Lines 42-45: the first value goes to the runoff figure, the next one
    to the routing figure, later ones nowhere. *)
Definition record_continuity (val : F) (s : state) : state :=
  match continuity_error_runoff s with
  | None => {|
      continuity_error_runoff := Some val;
      continuity_error_routing := continuity_error_routing s;
      in_flooding_table := in_flooding_table s;
      in_surcharge_table := in_surcharge_table s;
      flooded_nodes := flooded_nodes s;
      surcharged_links := surcharged_links s |}
  | Some _ =>
      match continuity_error_routing s with
      | None => {|
          continuity_error_runoff := continuity_error_runoff s;
          continuity_error_routing := Some val;
          in_flooding_table := in_flooding_table s;
          in_surcharge_table := in_surcharge_table s;
          flooded_nodes := flooded_nodes s;
          surcharged_links := surcharged_links s |}
      | Some _ => s
      end
  end.

(** Lines 39-45.  Nothing here catches the [ValueError] of [float]. *)
Definition continuity_check (s : state) (line : string) : exc state :=
  if Py.contains continuity_label line then
    match Py.last_item (Py.split line) with
    | None => Raise IndexError
    | Some tok =>
        match pyfloat tok with
        | None => Raise (ValueError tok)
        | Some val => Ok (record_continuity val s)
        end
    end
  else Ok s.

(** [tok.replace('.','',1).isdigit()] *)
Definition looks_numeric (tok : string) : bool :=
  Py.str_isdigit (Py.remove_first "." tok).

(** Lines 58-67: the flooding row extractor; [None] is a skipped line. *)
Definition flood_row (parts : list string) : option FloodRecord :=
  if (6 <=? List.length parts)%nat && looks_numeric (Py.item parts 1)
     && negb (Py.item parts 0 =? "Node")
  then
    match pyfloat (Py.item parts 2), pyfloat (Py.item parts 5) with
    | Some max_rate, Some total_vol =>
        Some {| node := Py.item parts 0;
                MaxFloodingRate := max_rate;
                TotalFloodVol := total_vol |}
    | _, _ => None
    end
  else None.

(** Lines 80-89: the surcharge row extractor. *)
Definition surcharge_row (parts : list string) : option SurchargeRecord :=
  if (5 <=? List.length parts)%nat && looks_numeric (Py.item parts 1)
     && negb (Py.item parts 0 =? "Conduit")
  then
    match pyfloat (Py.item parts 1), pyfloat (Py.item parts 3) with
    | Some hours_surcharged, Some hours_full_normal =>
        Some {| link := Py.item parts 0;
                HoursSurcharged := hours_surcharged;
                HoursAboveFullNormal := hours_full_normal |}
    | _, _ => None
    end
  else None.

Definition nonempty {A : Type} (l : list A) : bool :=
  match l with [] => false | _ => true end.

(** [not line.strip()] *)
Definition blank (line : string) : bool := Py.falsy (Py.strip line).

Definition flooding_data (s : state) (line : string) : state :=
  match flood_row (Py.split line) with
  | Some r => append_flooded r s
  | None => s
  end.

Definition surcharge_data (s : state) (line : string) : state :=
  match surcharge_row (Py.split line) with
  | Some r => append_surcharged r s
  | None => s
  end.

(** Lines 69-89, reached when no [continue] was taken before. *)
Definition surcharge_part (s : state) (line : string) : state :=
  if Py.contains surcharge_marker line then
    set_in_flooding false (set_in_surcharge true s)
  else if in_surcharge_table s then
    if blank line && nonempty (surcharged_links s) then
      set_in_surcharge false s
    else surcharge_data s line
  else s.

(** Lines 47-89. *)
Definition tables (s : state) (line : string) : state :=
  if Py.contains flooding_marker line then set_in_flooding true s
  else if in_flooding_table s then
    if blank line && nonempty (flooded_nodes s) then set_in_flooding false s
    else surcharge_part (flooding_data s line) line
  else surcharge_part s line.

(** The body of the loop, lines 35-89. *)
Definition step (s : state) (line : string) : exc state :=
  s1 <- continuity_check s line ;;
  Ok (tables s1 line).

(** [for line in f: ...] *)
Fixpoint loop (s : state) (lines : list string) : exc state :=
  match lines with
  | [] => Ok s
  | line :: rest => s' <- step s line ;; loop s' rest
  end.

(** Reading the whole file: the lines, then the failure if there is one. *)
Definition scan (lines : list string) (failure : option string) : exc state :=
  s <- loop initial lines ;;
  match failure with
  | Some detail => Raise (OSError detail)
  | None => Ok s
  end.

(** The dictionary returned on success. *)
Record result : Type := {
  continuity_error_runoff_percent : option F;
  continuity_error_routing_percent : option F;
  top_flooded_nodes : option (DataFrame FloodRecord);
  top_surcharged_conduits : option (DataFrame SurchargeRecord);
  raw_flooded_list : list FloodRecord;
  raw_surcharged_list : list SurchargeRecord
}.

(** The three dictionaries the function can return: [{"error": ...}],
    [{"status": "error", "message": ...}] and [{"status": "success", ...}]. *)
Inductive outcome : Type :=
| NotFound (rpt_path : string)
| StreamError (e : exn)
| Success (r : result).

Definition sorted_flooded (s : state) : list FloodRecord :=
  Py.sort_desc flt TotalFloodVol (flooded_nodes s).

Definition sorted_surcharged (s : state) : list SurchargeRecord :=
  Py.sort_desc flt HoursSurcharged (surcharged_links s).

(** Lines 91-114.  The lists are sorted in place, so the raw lists are
    slices of the sorted ones. *)
Definition post_process (s : state) : result :=
  let top_flooded_df :=
    if nonempty (flooded_nodes s) then
      Some {| columns := ["Node ID"; "Max Rate (CFS)"; "Total Volume (10^6 gal)"];
              rows := firstn 5 (sorted_flooded s) |}
    else None in
  let top_surcharged_df :=
    if nonempty (surcharged_links s) then
      Some {| columns := ["Conduit ID"; "Hours Surcharged"; "Hours Above Normal"];
              rows := firstn 5 (sorted_surcharged s) |}
    else None in
  {| continuity_error_runoff_percent := continuity_error_runoff s;
     continuity_error_routing_percent := continuity_error_routing s;
     top_flooded_nodes := top_flooded_df;
     top_surcharged_conduits := top_surcharged_df;
     raw_flooded_list := firstn 5 (sorted_flooded s);
     raw_surcharged_list := firstn 5 (sorted_surcharged s) |}.

(** [parse_swmm_results(rpt_path, inp_path)] over a file system [fs]. *)
Definition parse_swmm_results (fs : string -> file)
    (rpt_path : string) (inp_path : option string) : outcome :=
  match fs rpt_path with
  | Missing => NotFound rpt_path
  | Text lines failure =>
      match scan lines failure with
      | Ok s => Success (post_process s)
      | Raise e => StreamError e
      end
  end.

End Engine.

Arguments node {F} f.
Arguments MaxFloodingRate {F} f.
Arguments TotalFloodVol {F} f.
Arguments link {F} s.
Arguments HoursSurcharged {F} s.
Arguments HoursAboveFullNormal {F} s.
Arguments continuity_error_runoff {F} s.
Arguments continuity_error_routing {F} s.
Arguments in_flooding_table {F} s.
Arguments in_surcharge_table {F} s.
Arguments flooded_nodes {F} s.
Arguments surcharged_links {F} s.
Arguments continuity_error_runoff_percent {F} r.
Arguments continuity_error_routing_percent {F} r.
Arguments top_flooded_nodes {F} r.
Arguments top_surcharged_conduits {F} r.
Arguments raw_flooded_list {F} r.
Arguments raw_surcharged_list {F} r.
Arguments NotFound {F} rpt_path.
Arguments StreamError {F} e.
Arguments Success {F} r.
Arguments initial {F}.
Arguments set_in_flooding {F} b s.
Arguments set_in_surcharge {F} b s.
Arguments append_flooded {F} r s.
Arguments append_surcharged {F} r s.
Arguments record_continuity {F} val s.
Arguments continuity_check {F} pyfloat s line.
Arguments flood_row {F} pyfloat parts.
Arguments surcharge_row {F} pyfloat parts.
Arguments flooding_data {F} pyfloat s line.
Arguments surcharge_data {F} pyfloat s line.
Arguments surcharge_part {F} pyfloat s line.
Arguments tables {F} pyfloat s line.
Arguments step {F} pyfloat s line.
Arguments loop {F} pyfloat s lines.
Arguments scan {F} pyfloat lines failure.
Arguments sorted_flooded {F} flt s.
Arguments sorted_surcharged {F} flt s.
Arguments post_process {F} flt s.
Arguments parse_swmm_results {F} pyfloat flt fs rpt_path inp_path.

(** ** Plain decimal literals

    A concrete reading of [float] for runs on concrete reports: an optional
    sign, digits, at most one point, at least one digit, read as the exact
    rational in lowest terms.  On such literals [float] succeeds too, and it
    orders two of them the same way unless rounding makes them equal.  The
    other spellings [float] accepts (exponents, [inf], [nan], underscores)
    are not read here; no general statement below depends on this module. *)

Module Decimal.

Definition digit (c : ascii) : option Z :=
  let n := nat_of_ascii c in
  if ((48 <=? n) && (n <=? 57))%nat then Some (Z.of_nat (n - 48)) else None.

(** The leading digits of [s] appended to [acc]: the number read, how
    many digits it took, and what follows them. *)
Fixpoint digits (s : string) (acc : Z) (n : nat) : Z * nat * string :=
  match s with
  | EmptyString => (acc, n, s)
  | String c s' =>
      match digit c with
      | Some d => digits s' (10 * acc + d)%Z (S n)
      | None => (acc, n, s)
      end
  end.

Definition unsigned (s : string) : option Q :=
  let '(i, ni, rest) := digits s 0%Z 0 in
  match rest with
  | EmptyString => if (ni =? 0)%nat then None else Some (Qmake i 1)
  | String c rest' =>
      if Ascii.eqb c "." then
        let '(m, nf, rest'') := digits rest' i 0 in
        match rest'' with
        | EmptyString =>
            if (ni + nf =? 0)%nat then None
            else Some (Qred (Qmake m (Z.to_pos (10 ^ Z.of_nat nf))))
        | _ => None
        end
      else None
  end.

Definition parse (s : string) : option Q :=
  match s with
  | EmptyString => None
  | String c s' =>
      if Ascii.eqb c "-" then option_map Qopp (unsigned s')
      else if Ascii.eqb c "+" then unsigned s'
      else unsigned s
  end.

Definition lt (a b : Q) : bool :=
  (Qnum a * QDen b <? Qnum b * QDen a)%Z.

(** A file system holding one report. *)
Definition one_file (path : string) (lines : list string) : string -> file :=
  fun p => if p =? path then Text lines None else Missing.

Definition run (lines : list string) : outcome Q :=
  parse_swmm_results parse lt (one_file "model.rpt" lines) "model.rpt" None.

(** The loop started in the middle of a table. *)
Definition in_flooding : state Q := set_in_flooding true initial.
Definition in_surcharge : state Q := set_in_surcharge true initial.

(** The state the loop is in after the given lines. *)
Definition state_after (lines : list string) : state Q :=
  match loop parse initial lines with
  | Ok s => s
  | Raise _ => initial
  end.

End Decimal.

(** ** Sample reports *)

Module Sample.

(** The two continuity lines of a report without tables. *)
Definition continuity_only : list string :=
  ["  Runoff Quantity Continuity";
   "  Continuity Error (%) .....      -0.029";
   "  Flow Routing Continuity";
   "  Continuity Error (%) .....       0.441"].

(** A label line that carries no number. *)
Definition no_number : list string :=
  ["  Runoff Quantity Continuity";
   "  Continuity Error (%) .....      n/a";
   "  Node Flooding Summary";
   "";
   "  J12  5.00  12.5  0  0  0.250"].

(** A label line that carries no number, before the two that do. *)
Definition overflowed_field : list string :=
  ["  Continuity Error (%) .....      ********";
   "  Continuity Error (%) .....      -0.029";
   "  Continuity Error (%) .....       0.441"].

(** A readable file whose routing label line is cut short. *)
Definition cut_short : list string :=
  ["  Continuity Error (%) .....      -0.029";
   "  Continuity Error (%)"].

(** Seven flooded nodes, two of them with the same volume, and two
    surcharged conduits. *)
Definition two_tables : list string :=
  ["  Node Flooding Summary";
   "";
   "  Node   Hours   Rate   Day   Hour   Volume";
   "  ----------------------------------------";
   "  J12  5.00  12.5   0  0  0.250";
   "  J44  3.20  18.25  0  0  0.800";
   "  J07  1.00  2.0    0  0  0.100";
   "  J31  0.50  7.5    0  0  0.800";
   "  J02  2.00  3.0    0  0  1.500";
   "  J19  0.25  1.0    0  0  0.050";
   "  J50  4.00  9.0    0  0  0.300";
   "";
   "  Conduit Surcharge Summary";
   "";
   "  Conduit  Both  Up  Dn  Above  Limited";
   "  C1  0.50  0.50  0.25  0.10  0.01";
   "  C2  1.75  1.75  1.00  0.40  0.02";
   ""].

(** A flooding section that comes back after its first rows. *)
Definition repeated_section : list string :=
  ["  Node Flooding Summary";
   "  J12  5.00  12.5   0  0  0.250";
   "";
   "  Node Flooding Summary";
   "  J44  3.20  18.25  0  0  0.800"].

(** A flooding section that comes back with a blank line under its
    marker. *)
Definition blank_under_repeated_marker : list string :=
  ["  Node Flooding Summary";
   "";
   "  J12  5.00  12.5   0  0  0.250";
   "";
   "  Node Flooding Summary";
   "";
   "  J44  3.20  18.25  0  0  0.800"].

(** The flooding marker inside the surcharge table. *)
Definition overlap : list string :=
  ["  Conduit Surcharge Summary";
   "  Node Flooding Summary";
   "  C7  2.50  1.25  0.75  0.10  0.40"].

End Sample.

(** ** Vocabulary of the properties *)

Section Ranking.

Context {A K : Type} (lt : K -> K -> bool) (key : A -> K).

(** [<] behaves as a strict weak order on the keys [ks]: it is asymmetric
    and "not smaller than" is transitive.  Floats other than NaN compare
    this way. *)
Definition weak_order_on (ks : list K) : Prop :=
  (forall a b, In a ks -> In b ks -> lt a b = true -> lt b a = false) /\
  (forall a b c, In a ks -> In b ks -> In c ks ->
     lt a b = false -> lt b c = false -> lt a c = false).

(** No element is smaller than an earlier one. *)
Definition descending (l : list A) : Prop :=
  StronglySorted (fun a b => lt (key a) (key b) = false) l.

(** Neither key is smaller than the other. *)
Definition tied (a b : A) : bool :=
  negb (lt (key a) (key b)) && negb (lt (key b) (key a)).

Definition prefix_of (p l : list A) : Prop := exists q, l = p ++ q.

End Ranking.

Definition opt_list {A : Type} (o : option A) : list A :=
  match o with Some a => [a] | None => [] end.

(** [acc] lists, in the order of the lines, what [extract] reads from some
    of the lines. *)
Definition read_in_order {A : Type} (extract : string -> option A)
    (lines : list string) (acc : list A) : Prop :=
  exists sel : list bool,
    List.length sel = List.length lines /\
    acc = flat_map (fun bl : bool * string =>
                      if fst bl then opt_list (extract (snd bl)) else [])
                   (combine sel lines).

(** A non-negative decimal number as the report writes it: digits with at
    most one point among them, and at least one digit.  A digit is what
    [str.isdigit] takes for one. *)
Definition decimal_shape (tok : string) : Prop :=
  (tok <> EmptyString /\ Py.all_chars Py.isdigit tok = true) \/
  (exists a b,
     tok = (a ++ String "." b)%string /\ (a ++ b)%string <> EmptyString /\
     Py.all_chars Py.isdigit a = true /\
     Py.all_chars Py.isdigit b = true).

Section Vocabulary.

Variable F : Type.
Variable pyfloat : string -> option F.

(** The rows the flooding extractor has accepted when the file ends: the
    flooding accumulator after the loop, in file order. *)
Definition accepted_flooded (lines : list string) : list (FloodRecord F) :=
  match loop pyfloat initial lines with
  | Ok s => flooded_nodes s
  | Raise _ => []
  end.

Definition accepted_surcharged (lines : list string) : list (SurchargeRecord F) :=
  match loop pyfloat initial lines with
  | Ok s => surcharged_links s
  | Raise _ => []
  end.

(** The acceptance rule of a flooding row in the words of the
    specification: [r] is the record read from the tokens [parts]. *)
Definition flood_accepts (parts : list string) (r : FloodRecord F) : Prop :=
  6 <= List.length parts /\
  decimal_shape (Py.item parts 1) /\
  Py.item parts 0 <> "Node" /\
  node r = Py.item parts 0 /\
  pyfloat (Py.item parts 2) = Some (MaxFloodingRate r) /\
  pyfloat (Py.item parts 5) = Some (TotalFloodVol r).

(** The values of the label lines whose last token [float] reads, in file
    order. *)
Definition continuity_value (line : string) : list F :=
  if Py.contains continuity_label line then
    match Py.last_item (Py.split line) with
    | Some tok => opt_list (pyfloat tok)
    | None => []
    end
  else [].

Definition continuity_values (lines : list string) : list F :=
  flat_map continuity_value lines.

(** The figures of [s] are the first two of the values [vals]. *)
Definition figures_of (vals : list F) (s : state F) : Prop :=
  continuity_error_runoff s = nth_error vals 0 /\
  continuity_error_routing s = nth_error vals 1.

(** A label line whose last token [float] rejects. *)
Definition malformed_label_line (line : string) : Prop :=
  Py.contains continuity_label line = true /\
  exists tok, Py.last_item (Py.split line) = Some tok /\ pyfloat tok = None.

End Vocabulary.

Arguments accepted_flooded {F} pyfloat lines.
Arguments accepted_surcharged {F} pyfloat lines.
Arguments flood_accepts {F} pyfloat parts r.
Arguments continuity_value {F} pyfloat line.
Arguments continuity_values {F} pyfloat lines.
Arguments malformed_label_line {F} pyfloat line.
Arguments figures_of {F} vals s.

(** ** The surcharge extractor in words *)

Section SurchargeVocabulary.

Variable F : Type.
Variable pyfloat : string -> option F.

(** The acceptance rule of a surcharge row: [r] is the record read from
    the tokens [parts].  The second token is tested for its shape and then
    converted. *)
Definition surcharge_accepts (parts : list string) (r : SurchargeRecord F) : Prop :=
  5 <= List.length parts /\
  decimal_shape (Py.item parts 1) /\
  Py.item parts 0 <> "Conduit" /\
  link r = Py.item parts 0 /\
  pyfloat (Py.item parts 1) = Some (HoursSurcharged r) /\
  pyfloat (Py.item parts 3) = Some (HoursAboveFullNormal r).

End SurchargeVocabulary.

Arguments surcharge_accepts {F} pyfloat parts r.

(** ** The agent tool: [analyze_swmm_report] (agent_workflow.py)

    The text of a float ([str] and [repr] agree on floats) and the [repr]
    of a string are kept abstract, like [float]. *)

Definition newline : string := String (ascii_of_nat 10) EmptyString.

Section Agent.

Variable F : Type.
Variable pyfloat : string -> option F.
Variable flt : F -> F -> bool.
Variable str_float : F -> string.
Variable repr_str : string -> string.

(** [str(e)] *)
Definition exn_str (e : exn) : string :=
  match e with
  | ValueError tok => ("could not convert string to float: " ++ repr_str tok)%string
  | IndexError => "list index out of range"
  | OSError detail => detail
  end.

(** [os.path.exists(path)] *)
Definition path_exists (fs : string -> file) (path : string) : bool :=
  match fs path with
  | Missing => false
  | Text _ _ => true
  end.

(** [result_dict.get(key)] on the three dictionaries of the parser; a key
    the dictionary does not have gives [None]. *)
Definition get_status (d : outcome F) : option string :=
  match d with
  | NotFound _ => None
  | StreamError _ => Some "error"
  | Success _ => Some "success"
  end.

Definition get_message (d : outcome F) : option string :=
  match d with
  | StreamError e => Some ("Error during large file stream: " ++ exn_str e)%string
  | _ => None
  end.

Definition get_runoff (d : outcome F) : option F :=
  match d with
  | Success r => continuity_error_runoff_percent r
  | _ => None
  end.

Definition get_routing (d : outcome F) : option F :=
  match d with
  | Success r => continuity_error_routing_percent r
  | _ => None
  end.

Definition get_top_flooded (d : outcome F) : option (DataFrame (FloodRecord F)) :=
  match d with
  | Success r => top_flooded_nodes r
  | _ => None
  end.

Definition get_top_surcharged (d : outcome F)
    : option (DataFrame (SurchargeRecord F)) :=
  match d with
  | Success r => top_surcharged_conduits r
  | _ => None
  end.

Definition get_raw_flooded (d : outcome F) : option (list (FloodRecord F)) :=
  match d with
  | Success r => Some (raw_flooded_list r)
  | _ => None
  end.

Definition get_raw_surcharged (d : outcome F)
    : option (list (SurchargeRecord F)) :=
  match d with
  | Success r => Some (raw_surcharged_list r)
  | _ => None
  end.

(** [{x}] in an f-string for a value that may be [None]. *)
Definition fmt_opt {A : Type} (show : A -> string) (o : option A) : string :=
  match o with
  | Some a => show a
  | None => "None"
  end.

(** [str(data)] for the two kinds of dictionaries. *)
Definition flood_dict_str (data : FloodRecord F) : string :=
  ("{'node': " ++ repr_str (node data)
   ++ ", 'MaxFloodingRate': " ++ str_float (MaxFloodingRate data)
   ++ ", 'TotalFloodVol': " ++ str_float (TotalFloodVol data) ++ "}")%string.

Definition surcharge_dict_str (data : SurchargeRecord F) : string :=
  ("{'link': " ++ repr_str (link data)
   ++ ", 'HoursSurcharged': " ++ str_float (HoursSurcharged data)
   ++ ", 'HoursAboveFullNormal': " ++ str_float (HoursAboveFullNormal data)
   ++ "}")%string.

Definition flooded_bullet (data : FloodRecord F) : string :=
  ("- Node " ++ node data ++ ": " ++ flood_dict_str data)%string.

Definition surcharged_bullet (data : SurchargeRecord F) : string :=
  ("- Link " ++ link data ++ ": " ++ surcharge_dict_str data)%string.

(** Lines 50-55. *)
Definition flooded_lines (l : option (list (FloodRecord F))) : list string :=
  match l with
  | Some (d :: ds) => map flooded_bullet (d :: ds)
  | _ => ["- No flooding data found."]
  end.

(** Lines 58-63. *)
Definition surcharged_lines (l : option (list (SurchargeRecord F)))
    : list string :=
  match l with
  | Some (d :: ds) => map surcharged_bullet (d :: ds)
  | _ => ["- No capacity data found."]
  end.

(** Lines 45-63: the list [summary]. *)
Definition summary (d : outcome F) : list string :=
  [("**Runoff Continuity Error**: " ++ fmt_opt str_float (get_runoff d) ++ "%")%string;
   ("**Routing Continuity Error**: " ++ fmt_opt str_float (get_routing d) ++ "%")%string;
   (newline ++ "**Top Flooded Nodes (Max Volume)**:")%string]
  ++ flooded_lines (get_raw_flooded d)
  ++ [(newline ++ "**Top Surcharged Conduits (Max Q / Full Q Ratio)**:")%string]
  ++ surcharged_lines (get_raw_surcharged d).

(** The two keys of [cl.user_session] the tool writes and the front end
    reads. *)
Record ui_session : Type := {
  latest_flooded_df : option (DataFrame (FloodRecord F));
  latest_surcharged_df : option (DataFrame (SurchargeRecord F))
}.

Definition path_error (rpt_path : string) : string :=
  ("Error: The provided report file path '" ++ rpt_path
   ++ "' does not exist on disk.")%string.

(** [analyze_swmm_report(rpt_path, inp_path)]: the text returned to the
    agent and the session afterwards.  [session] is [None] when there is no
    Chainlit context: [cl.user_session.set] raises then and lines 43-44
    pass over it. *)
Definition analyze_swmm_report (fs : string -> file) (session : option ui_session)
    (rpt_path : string) (inp_path : option string)
    : string * option ui_session :=
  if Py.falsy rpt_path || negb (path_exists fs rpt_path) then
    (path_error rpt_path, session)
  else
    let result_dict := parse_swmm_results pyfloat flt fs rpt_path inp_path in
    match get_status result_dict with
    | Some "error" =>
        (("Failed to parse model: "
          ++ fmt_opt (fun m => m) (get_message result_dict))%string, session)
    | _ =>
        let session' :=
          match session with
          | Some _ => Some {| latest_flooded_df := get_top_flooded result_dict;
                              latest_surcharged_df := get_top_surcharged result_dict |}
          | None => None
          end in
        (String.concat newline (summary result_dict), session')
    end.

(** ** What the front end does with the session (app.py)

    [DataFrame.empty] and [len(df)]. *)
Definition df_empty {A : Type} (df : DataFrame A) : bool :=
  match rows df, columns df with
  | _ :: _, _ :: _ => false
  | _, _ => true
  end.

Definition df_len {A : Type} (df : DataFrame A) : nat := List.length (rows df).

(** Lines 138 and 156: [df is not None and not df.empty]. *)
Definition shown {A : Type} (df : option (DataFrame A)) : bool :=
  match df with
  | Some d => negb (df_empty d)
  | None => false
  end.

(** Lines 181-182: [len(df) if df is not None and not df.empty else 0]. *)
Definition logged_count {A : Type} (df : option (DataFrame A)) : nat :=
  match df with
  | Some d => if negb (df_empty d) then df_len d else 0
  | None => 0
  end.

(** Lines 163-164. *)
Definition cleared : ui_session :=
  {| latest_flooded_df := None; latest_surcharged_df := None |}.

End Agent.

Arguments get_status {F} d.
Arguments get_message {F} repr_str d.
Arguments get_runoff {F} d.
Arguments get_routing {F} d.
Arguments get_top_flooded {F} d.
Arguments get_top_surcharged {F} d.
Arguments get_raw_flooded {F} d.
Arguments get_raw_surcharged {F} d.
Arguments flood_dict_str {F} str_float repr_str data.
Arguments surcharge_dict_str {F} str_float repr_str data.
Arguments flooded_bullet {F} str_float repr_str data.
Arguments surcharged_bullet {F} str_float repr_str data.
Arguments flooded_lines {F} str_float repr_str l.
Arguments surcharged_lines {F} str_float repr_str l.
Arguments summary {F} str_float repr_str d.
Arguments latest_flooded_df {F} u.
Arguments latest_surcharged_df {F} u.
Arguments analyze_swmm_report {F} pyfloat flt str_float repr_str fs session
  rpt_path inp_path.
Arguments cleared {F}.

(** ** The uploaded files (app.py, lines 41-60) *)

(** An element of the message: its name and, when it is on disk, its
    path. *)
Record element : Type := {
  name : string;
  path : option string
}.

(** [s.endswith(suffix)] *)
Fixpoint endswith (suffix s : string) : bool :=
  if String.eqb s suffix then true
  else
    match s with
    | EmptyString => false
    | String _ s' => endswith suffix s'
    end.

(** The truth value of a path: [None] and the empty string are false. *)
Definition truthy (p : option string) : bool :=
  match p with
  | Some (String _ _) => true
  | _ => false
  end.

(** The body of the loop of lines 47-51 on the pair [(rpt_path, inp_path)]. *)
Definition pick (paths : option string * option string) (e : element)
    : option string * option string :=
  if endswith ".rpt" (name e) then (path e, snd paths)
  else if endswith ".inp" (name e) then (fst paths, path e)
  else paths.

(** Lines 42-51. *)
Definition uploaded_paths (elements : list element)
    : option string * option string :=
  fold_left pick elements (None, None).

(** Lines 55-60: the content of the message after the file context is
    added. *)
Definition with_file_context (content : string) (elements : list element)
    : string :=
  let (rpt_path, inp_path) := uploaded_paths elements in
  if truthy rpt_path then
    (content ++ newline
     ++ "[System: The user has uploaded a SWMM report file at disk path: "
     ++ fmt_opt (fun p => p) rpt_path ++ "]"
     ++ (if truthy inp_path then
           newline
           ++ "[System: The user has also uploaded a SWMM input file at disk path: "
           ++ fmt_opt (fun p => p) inp_path ++ "]"
         else ""))%string
  else content.

(** The path of the last element whose name passes [test]. *)
Definition last_path (test : string -> bool) (elements : list element)
    : option string :=
  match find (fun e => test (name e)) (rev elements) with
  | Some e => path e
  | None => None
  end.

(** ** The agent node: [call_model] (agent_workflow.py, lines 99-108) *)

Inductive message : Type :=
| SystemMessage (content : string)
| HumanMessage (content : string)
| AIMessage (content : string) (tool_calls : list string)
| ToolMessage (content : string).

Definition is_system (m : message) : bool :=
  match m with
  | SystemMessage _ => true
  | _ => false
  end.

Section CallModel.

(** The text of the system prompt and the language model. *)
Variable system_prompt_text : string.
Variable invoke : list message -> message.

(** Lines 101-105: the messages handed to the model; [messages[0]] raises
    on an empty list. *)
Definition with_system_prompt (messages : list message) : exc (list message) :=
  match messages with
  | [] => Raise IndexError
  | m :: _ =>
      if is_system m then Ok messages
      else Ok (SystemMessage system_prompt_text :: messages)
  end.

(** [call_model(state)]: the value of the key "messages" it returns. *)
Definition call_model (messages : list message) : exc (list message) :=
  sent <- with_system_prompt messages ;;
  Ok [invoke sent].

End CallModel.

(** Whether the last character of a text is there and is not white
    space. *)
Fixpoint ends_in_ink (s : string) : bool :=
  match s with
  | EmptyString => false
  | String c EmptyString => negb (Py.isspace c)
  | String _ s' => ends_in_ink s'
  end.

(** ** Texts for the runs on the sample reports

    [str] of a float that is a short decimal of moderate size, as Python
    prints it (digits, a point, at least one digit behind it), and [repr]
    of a string that needs no escape. *)

Module Render.

Fixpoint digits_of (fuel : nat) (n : Z) (acc : string) : string :=
  match fuel with
  | O => acc
  | S fuel' =>
      let acc' := String (ascii_of_nat (48 + Z.to_nat (n mod 10))) acc in
      if (n / 10 =? 0)%Z then acc' else digits_of fuel' (n / 10)%Z acc'
  end.

Definition nat_text (n : Z) : string := digits_of 40 n EmptyString.

(** The least [k] below [fuel + from] with [den] dividing [10 ^ k]. *)
Fixpoint scale_of (fuel : nat) (from : nat) (den : Z) : nat :=
  match fuel with
  | O => from
  | S fuel' =>
      if ((10 ^ Z.of_nat from) mod den =? 0)%Z then from
      else scale_of fuel' (S from) den
  end.

Fixpoint zeros (n : nat) : string :=
  match n with
  | O => EmptyString
  | S n' => String "0" (zeros n')
  end.

Definition str_float (q : Q) : string :=
  let den := Zpos (Qden q) in
  let k := scale_of 30 0 den in
  let m := (Z.abs (Qnum q) * 10 ^ Z.of_nat k / den)%Z in
  let whole := (m / 10 ^ Z.of_nat k)%Z in
  let part := (m mod 10 ^ Z.of_nat k)%Z in
  let part_text :=
    match k with
    | O => "0"
    | _ => (zeros (k - String.length (nat_text part)) ++ nat_text part)%string
    end in
  ((if (Qnum q <? 0)%Z then "-" else "")
   ++ nat_text whole ++ "." ++ part_text)%string.

Definition repr_str (s : string) : string := ("'" ++ s ++ "'")%string.

Definition analyze (lines : list string) (session : option (ui_session Q))
    : string * option (ui_session Q) :=
  analyze_swmm_report Decimal.parse Decimal.lt str_float repr_str
    (Decimal.one_file "model.rpt" lines) session "model.rpt" None.

End Render.

(** A reading cut by a failure of the disk after the last line. *)
Definition failing_disk (lines : list string) : string -> file :=
  fun p => if p =? "model.rpt" then Text lines (Some "[Errno 5] Input/output error")
           else Missing.

(** Three uploads: two reports and an input file. *)
Definition three_uploads : list element :=
  [{| name := "old.rpt"; path := Some "/tmp/a" |};
   {| name := "model.inp"; path := Some "/tmp/b" |};
   {| name := "new.rpt"; path := Some "/tmp/c" |}].

(** ** Floats with NaN

    A second concrete reading of [float]: the plain decimal literals and
    the spellings of NaN ([nan] in any case, with an optional sign).  NaN
    is smaller than nothing and nothing is smaller than NaN. *)

Module WithNaN.

Inductive t : Type :=
| Num (q : Q)
| NaN.

Definition lower (c : ascii) : ascii :=
  let n := nat_of_ascii c in
  if ((65 <=? n) && (n <=? 90))%nat then ascii_of_nat (n + 32) else c.

Fixpoint lower_text (s : string) : string :=
  match s with
  | EmptyString => EmptyString
  | String c s' => String (lower c) (lower_text s')
  end.

Definition unsigned (s : string) : string :=
  match s with
  | String c s' => if Ascii.eqb c "-" || Ascii.eqb c "+" then s' else s
  | EmptyString => s
  end.

Definition parse (s : string) : option t :=
  if lower_text (unsigned s) =? "nan" then Some NaN
  else option_map Num (Decimal.parse s).

Definition lt (a b : t) : bool :=
  match a, b with
  | Num x, Num y => Decimal.lt x y
  | _, _ => false
  end.

Definition is_nan (a : t) : bool :=
  match a with NaN => true | Num _ => false end.

Definition run (lines : list string) : outcome t :=
  parse_swmm_results parse lt (Decimal.one_file "model.rpt" lines) "model.rpt" None.

End WithNaN.

(** ** Corner cases of the flooding table *)

Module Corner.

(** Three flooded nodes, the second with the volume [nan]. *)
Definition nan_volume : list string :=
  ["  Node Flooding Summary";
   "  J1  1.00  5.0  0  0  1.0";
   "  J2  1.00  5.0  0  0  nan";
   "  J3  1.00  5.0  0  0  2.0"].

(** The superscript two, U+00B2. *)
Definition superscript_two : string := String (ascii_of_nat 178) EmptyString.

(** A row whose second token is the superscript two. *)
Definition superscript_row : string :=
  ("J1 " ++ superscript_two ++ " 12.5 0 0 0.25")%string.

(** A row that carries the flooding marker behind its six tokens. *)
Definition row_with_marker : string :=
  "J1 1 12.5 0 0 0.25 Node Flooding Summary".

End Corner.

(** ** Facts about the string primitives *)

Section StringFacts.

Lemma lstrip_all_space (s : string) :
  Py.all_chars Py.isspace s = true -> Py.lstrip s = EmptyString.
Proof.
  induction s as [|c s IH]; simpl; [reflexivity|].
  intros H. apply andb_true_iff in H as [Hc Hs].
  rewrite Hc. now apply IH.
Qed.

Lemma lstrip_head (s : string) :
  Py.lstrip s = EmptyString \/
  exists c r, Py.lstrip s = String c r /\ Py.isspace c = false.
Proof.
  induction s as [|c s IH]; simpl; [now left|].
  destruct (Py.isspace c) eqn:Hc; [exact IH|].
  right. now exists c, s.
Qed.

Lemma lstrip_empty_all_space (s : string) :
  Py.lstrip s = EmptyString -> Py.all_chars Py.isspace s = true.
Proof.
  induction s as [|c s IH]; simpl; [reflexivity|].
  destruct (Py.isspace c); [exact IH | discriminate].
Qed.

Lemma rstrip_head (c : ascii) (s : string) :
  Py.isspace c = false -> Py.rstrip (String c s) <> EmptyString.
Proof.
  intros Hc. simpl. rewrite Hc. now destruct (Py.rstrip s).
Qed.

(** [not line.strip()] holds exactly of the lines made of white space. *)
Lemma blank_iff (line : string) :
  blank line = true <-> Py.all_chars Py.isspace line = true.
Proof.
  unfold blank, Py.strip. split.
  - intros H. apply lstrip_empty_all_space.
    destruct (lstrip_head line) as [E | (c & r & E & Hc)]; [exact E|].
    rewrite E in H. pose proof (rstrip_head c r Hc) as N.
    destruct (Py.rstrip (String c r)); [now elim N | discriminate].
  - intros H. now rewrite (lstrip_all_space _ H).
Qed.

Lemma split_all_space (s : string) :
  Py.all_chars Py.isspace s = true -> Py.split s = [].
Proof.
  induction s as [|c s IH]; simpl; [reflexivity|].
  intros H. apply andb_true_iff in H as [Hc Hs].
  rewrite Hc. now apply IH.
Qed.

Lemma split_nil_all_space (s : string) :
  Py.split s = [] -> Py.all_chars Py.isspace s = true.
Proof.
  induction s as [|c s IH]; simpl; [reflexivity|].
  destruct (Py.isspace c); [exact IH|].
  destruct s as [|c' s']; [discriminate|].
  destruct (Py.isspace c'); [discriminate|].
  now destruct (Py.split (String c' s')).
Qed.

Lemma blank_split (line : string) : blank line = true -> Py.split line = [].
Proof. intros H. now apply split_all_space, blank_iff. Qed.

Lemma split_blank (line : string) : Py.split line = [] -> blank line = true.
Proof. intros H. now apply blank_iff, split_nil_all_space. Qed.

(** A text that starts with a character that is not white space does not
    occur in a blank line. *)
Lemma contains_all_space (c : ascii) (needle hay : string) :
  Py.isspace c = false ->
  Py.all_chars Py.isspace hay = true ->
  Py.contains (String c needle) hay = false.
Proof.
  intros Hc. induction hay as [|d hay IH]; simpl; [reflexivity|].
  intros H. apply andb_true_iff in H as [Hd Hs].
  destruct (ascii_dec c d) as [->|_]; [congruence|].
  now apply IH.
Qed.

Lemma blank_no_label (line : string) :
  blank line = true -> Py.contains continuity_label line = false.
Proof. intros H. apply contains_all_space; [reflexivity | now apply blank_iff]. Qed.

Lemma blank_no_flooding_marker (line : string) :
  blank line = true -> Py.contains flooding_marker line = false.
Proof. intros H. apply contains_all_space; [reflexivity | now apply blank_iff]. Qed.

Lemma blank_no_surcharge_marker (line : string) :
  blank line = true -> Py.contains surcharge_marker line = false.
Proof. intros H. apply contains_all_space; [reflexivity | now apply blank_iff]. Qed.

Lemma last_item_some {A : Type} (l : list A) :
  l <> [] -> exists x, Py.last_item l = Some x.
Proof.
  intros N. unfold Py.last_item. destruct (rev l) as [|x r] eqn:E.
  - apply (f_equal (@rev A)) in E. rewrite rev_involutive in E. now elim N.
  - now exists x.
Qed.

(** A line that carries the label has a last token: [parts[-1]] never
    raises on line 41. *)
Lemma label_last_token (line : string) :
  Py.contains continuity_label line = true ->
  exists tok, Py.last_item (Py.split line) = Some tok.
Proof.
  intros H. apply last_item_some. intros E.
  apply split_blank, blank_no_label in E. congruence.
Qed.

End StringFacts.

(** ** Facts about the stable descending sort *)

Section SortFacts.

Context {A K : Type} (lt : K -> K -> bool) (key : A -> K).

Lemma weak_order_on_incl (ks ks' : list K) :
  incl ks ks' -> weak_order_on lt ks' -> weak_order_on lt ks.
Proof.
  intros I [Ha Ht]. split.
  - intros a b ia ib. apply Ha; now apply I.
  - intros a b c ia ib ic. apply Ht; now apply I.
Qed.

Lemma insert_desc_perm (x : A) (l : list A) :
  Permutation (Py.insert_desc lt key x l) (x :: l).
Proof.
  induction l as [|y l IH]; simpl; [reflexivity|].
  destruct (lt (key x) (key y)); [|reflexivity].
  rewrite IH. apply perm_swap.
Qed.

Lemma sort_desc_perm (l : list A) : Permutation (Py.sort_desc lt key l) l.
Proof.
  induction l as [|x l IH]; simpl; [reflexivity|].
  rewrite insert_desc_perm. now constructor.
Qed.

Lemma sort_desc_In (l : list A) (x : A) :
  In x (Py.sort_desc lt key l) <-> In x l.
Proof.
  split; apply Permutation_in;
    [apply sort_desc_perm | symmetry; apply sort_desc_perm].
Qed.

Lemma insert_desc_sorted (x : A) (l : list A) :
  weak_order_on lt (map key (x :: l)) ->
  descending lt key l -> descending lt key (Py.insert_desc lt key x l).
Proof.
  unfold descending. intros W S. induction S as [|y l S IH Hy].
  - simpl. repeat constructor.
  - simpl. destruct (lt (key x) (key y)) eqn:E.
    + constructor.
      * apply IH. revert W. apply weak_order_on_incl.
        intros k Hk. simpl in *. tauto.
      * apply Forall_forall. intros z Hz.
        apply (Permutation_in _ (insert_desc_perm x l)) in Hz.
        destruct Hz as [<-|Hz].
        -- destruct W as [Ha _]. apply Ha; simpl; auto.
        -- rewrite Forall_forall in Hy. now apply Hy.
    + constructor; [now constructor|].
      constructor; [exact E|].
      apply Forall_forall. intros z Hz.
      rewrite Forall_forall in Hy. destruct W as [_ Ht].
      apply (Ht (key x) (key y) (key z)); simpl; auto.
      right; right. now apply in_map.
Qed.

Lemma sort_desc_sorted (l : list A) :
  weak_order_on lt (map key l) -> descending lt key (Py.sort_desc lt key l).
Proof.
  induction l as [|x l IH]; intros W; simpl.
  - constructor.
  - apply insert_desc_sorted.
    + revert W. apply weak_order_on_incl. intros k Hk. simpl in *.
      destruct Hk as [->|Hk]; [now left|right].
      apply in_map_iff in Hk as (z & <- & Hz).
      apply in_map. now apply sort_desc_In.
    + apply IH. revert W. apply weak_order_on_incl.
      intros k Hk. simpl. tauto.
Qed.

(** Inserting [x] does not change the order in which the elements tied
    with [x0] appear. *)
Lemma insert_desc_stable (x0 x : A) (l : list A) :
  weak_order_on lt (map key (x0 :: x :: l)) ->
  filter (tied lt key x0) (Py.insert_desc lt key x l) = filter (tied lt key x0) (x :: l).
Proof.
  induction l as [|y l IH]; intros W; [reflexivity|].
  simpl. destruct (lt (key x) (key y)) eqn:E; [|reflexivity].
  simpl. rewrite IH.
  2:{ revert W. apply weak_order_on_incl.
      intros k Hk. simpl in *. tauto. }
  simpl. destruct (tied lt key x0 x) eqn:Tx; [|reflexivity].
  destruct (tied lt key x0 y) eqn:Ty; [|reflexivity].
  exfalso. unfold tied in Tx, Ty.
  apply andb_true_iff in Tx as [_ Tx], Ty as [Ty _].
  apply negb_true_iff in Tx, Ty. destruct W as [_ Ht].
  rewrite (Ht (key x) (key x0) (key y)) in E; simpl; auto; discriminate.
Qed.

(** The sort is stable: the elements tied with a given one are in the
    order they had before. *)
Lemma sort_desc_stable (x0 : A) (l : list A) :
  weak_order_on lt (map key (x0 :: l)) ->
  filter (tied lt key x0) (Py.sort_desc lt key l) = filter (tied lt key x0) l.
Proof.
  induction l as [|x l IH]; intros W; [reflexivity|].
  simpl Py.sort_desc. rewrite insert_desc_stable.
  - simpl. rewrite IH; [reflexivity|].
    revert W. apply weak_order_on_incl.
    intros k Hk. simpl in *. tauto.
  - revert W. apply weak_order_on_incl. intros k Hk. simpl in *.
    destruct Hk as [->|[->|Hk]]; auto.
    apply in_map_iff in Hk as (z & <- & Hz).
    right; right. apply in_map. now apply sort_desc_In.
Qed.

Lemma descending_firstn (n : nat) (l : list A) :
  descending lt key l -> descending lt key (firstn n l).
Proof.
  unfold descending. intros S. revert n.
  induction S as [|a l S IH Ha]; intros [|n]; simpl; try constructor.
  - apply IH.
  - apply Forall_forall. intros z Hz. rewrite Forall_forall in Ha.
    apply Ha. rewrite <- (firstn_skipn n l). apply in_or_app. now left.
Qed.

Lemma filter_firstn_prefix (p : A -> bool) (n : nat) (l : list A) :
  prefix_of (filter p (firstn n l)) (filter p l).
Proof.
  exists (filter p (skipn n l)).
  now rewrite <- filter_app, firstn_skipn.
Qed.

Lemma In_firstn (n : nat) (l : list A) (x : A) :
  In x (firstn n l) -> In x l.
Proof.
  intros H. rewrite <- (firstn_skipn n l). apply in_or_app. now left.
Qed.

Lemma weak_order_irrefl (ks : list K) (k : K) :
  weak_order_on lt ks -> In k ks -> lt k k = false.
Proof.
  intros [Ha _] Hk. destruct (lt k k) eqn:E; [|reflexivity].
  now rewrite (Ha k k Hk Hk E) in E.
Qed.

Lemma tied_sym (a b : A) : tied lt key a b = tied lt key b a.
Proof. unfold tied. apply andb_comm. Qed.

(** Two descending arrangements of the same elements that list the
    elements tied with any given one in the same order are equal. *)
Lemma descending_stable_unique (l1 l2 : list A) :
  weak_order_on lt (map key l1) ->
  Permutation l1 l2 ->
  descending lt key l1 -> descending lt key l2 ->
  (forall x, In x l1 -> filter (tied lt key x) l1 = filter (tied lt key x) l2) ->
  l1 = l2.
Proof.
  revert l2. induction l1 as [|a t1 IH]; intros l2 W P S1 S2 Hf.
  - apply Permutation_nil in P. now subst.
  - destruct l2 as [|b t2];
      [apply Permutation_sym, Permutation_nil in P; discriminate|].
    apply StronglySorted_inv in S1 as [S1 Fa], S2 as [S2 Fb].
    rewrite Forall_forall in Fa, Fb.
    assert (Ia : In a (b :: t2)) by (apply (Permutation_in _ P); now left).
    assert (Ib : In b (a :: t1))
      by (apply (Permutation_in _ (Permutation_sym P)); now left).
    assert (Raa : lt (key a) (key a) = false).
    { apply (weak_order_irrefl (map key (a :: t1))); simpl; auto. }
    assert (Tab : tied lt key a b = true).
    { unfold tied. apply andb_true_iff. split; apply negb_true_iff.
      - destruct Ib as [E|Ib]; [now rewrite <- E | now apply Fa].
      - destruct Ia as [E|Ia]; [now rewrite E | now apply Fb]. }
    assert (Taa : tied lt key a a = true).
    { unfold tied. now rewrite Raa. }
    pose proof (Hf a (or_introl eq_refl)) as H0. simpl in H0.
    rewrite Taa, Tab in H0. injection H0 as <- H0.
    f_equal. apply IH.
    + revert W. apply weak_order_on_incl. intros k Hk. now right.
    + now apply Permutation_cons_inv in P.
    + exact S1.
    + exact S2.
    + intros x Hx. pose proof (Hf x (or_intror Hx)) as H1. simpl in H1.
      destruct (tied lt key x a); [now injection H1 | exact H1].
Qed.

(** Whatever stable sort into descending order is run on [l], it returns
    [sort_desc l]: the model does not depend on the algorithm. *)
Lemma sort_desc_unique (l l' : list A) :
  weak_order_on lt (map key l) ->
  Permutation l' l ->
  descending lt key l' ->
  (forall x, In x l -> filter (tied lt key x) l' = filter (tied lt key x) l) ->
  l' = Py.sort_desc lt key l.
Proof.
  intros W P S Hf.
  assert (W' : weak_order_on lt (map key l')).
  { revert W. apply weak_order_on_incl. intros k Hk.
    apply in_map_iff in Hk as (z & <- & Hz). apply in_map.
    now apply (Permutation_in _ P). }
  apply descending_stable_unique; auto.
  - rewrite P. symmetry. apply sort_desc_perm.
  - now apply sort_desc_sorted.
  - intros x Hx. apply (Permutation_in _ P) in Hx.
    rewrite (Hf x Hx). symmetry. apply sort_desc_stable.
    revert W. apply weak_order_on_incl. intros k [<-|Hk]; [|exact Hk].
    now apply in_map.
Qed.

End SortFacts.

(** ** Facts about the loop body *)

Section EngineFacts.

Variable F : Type.
Variable pyfloat : string -> option F.
Variable flt : F -> F -> bool.

Lemma nonempty_true {A : Type} (l : list A) : l <> [] -> nonempty l = true.
Proof. now destruct l. Qed.

(** *** The continuity check *)

Lemma record_continuity_tables (val : F) (s : state F) :
  in_flooding_table (record_continuity val s) = in_flooding_table s /\
  in_surcharge_table (record_continuity val s) = in_surcharge_table s /\
  flooded_nodes (record_continuity val s) = flooded_nodes s /\
  surcharged_links (record_continuity val s) = surcharged_links s.
Proof.
  unfold record_continuity.
  destruct (continuity_error_runoff s), (continuity_error_routing s);
    simpl; auto.
Qed.

Lemma continuity_check_tables (s s1 : state F) (line : string) :
  continuity_check pyfloat s line = Ok s1 ->
  in_flooding_table s1 = in_flooding_table s /\
  in_surcharge_table s1 = in_surcharge_table s /\
  flooded_nodes s1 = flooded_nodes s /\
  surcharged_links s1 = surcharged_links s.
Proof.
  unfold continuity_check.
  destruct (Py.contains continuity_label line).
  - destruct (Py.last_item (Py.split line)) as [tok|]; [|discriminate].
    destruct (pyfloat tok) as [val|]; [|discriminate].
    intros [= <-]. apply record_continuity_tables.
  - intros [= <-]. auto.
Qed.

Lemma continuity_check_no_label (s : state F) (line : string) :
  Py.contains continuity_label line = false -> continuity_check pyfloat s line = Ok s.
Proof. unfold continuity_check. now intros ->. Qed.

(** The check raises exactly on a label line whose last token [float]
    rejects, and what it raises is the [ValueError] of that token. *)
Lemma continuity_check_raises (s : state F) (line : string) (e : exn) :
  continuity_check pyfloat s line = Raise e <->
  Py.contains continuity_label line = true /\
  exists tok, Py.last_item (Py.split line) = Some tok /\
              pyfloat tok = None /\ e = ValueError tok.
Proof.
  unfold continuity_check. split.
  - destruct (Py.contains continuity_label line) eqn:L; [|discriminate].
    destruct (label_last_token line L) as [tok ->].
    destruct (pyfloat tok) eqn:P; [discriminate|].
    intros [= <-]. split; [reflexivity|]. now exists tok.
  - intros [-> (tok & -> & -> & ->)]. reflexivity.
Qed.

Lemma step_ok (s s' : state F) (line : string) :
  step pyfloat s line = Ok s' <->
  exists s1, continuity_check pyfloat s line = Ok s1 /\ s' = tables pyfloat s1 line.
Proof.
  unfold step, bind. split.
  - destruct (continuity_check pyfloat s line) as [s1|e]; [|discriminate].
    intros [= <-]. now exists s1.
  - intros (s1 & -> & ->). reflexivity.
Qed.

Lemma step_raise (s : state F) (line : string) (e : exn) :
  step pyfloat s line = Raise e <-> continuity_check pyfloat s line = Raise e.
Proof.
  unfold step, bind.
  destruct (continuity_check pyfloat s line); split; congruence.
Qed.

Lemma step_no_label (s : state F) (line : string) :
  Py.contains continuity_label line = false ->
  step pyfloat s line = Ok (tables pyfloat s line).
Proof.
  intros L. unfold step. now rewrite continuity_check_no_label.
Qed.

(** *** The two tables *)

Lemma flood_row_nil : flood_row pyfloat [] = None.
Proof. reflexivity. Qed.

Lemma surcharge_row_nil : surcharge_row pyfloat [] = None.
Proof. reflexivity. Qed.

(** What one line adds to the flooding accumulator. *)
Lemma tables_flooded (s : state F) (line : string) :
  flooded_nodes (tables pyfloat s line) =
  flooded_nodes s ++
    (if negb (Py.contains flooding_marker line) && in_flooding_table s
     then opt_list (flood_row pyfloat (Py.split line)) else []).
Proof.
  unfold tables, surcharge_part, flooding_data, surcharge_data.
  destruct (Py.contains flooding_marker line); simpl;
    [now rewrite app_nil_r|].
  destruct (in_flooding_table s) eqn:Hin; simpl.
  - destruct (blank line) eqn:B; simpl.
    + rewrite (blank_split _ B), flood_row_nil, surcharge_row_nil. simpl.
      rewrite (blank_no_surcharge_marker _ B), app_nil_r.
      destruct (nonempty (flooded_nodes s)); simpl; [reflexivity|].
      now destruct (in_surcharge_table s), (nonempty (surcharged_links s)).
    + destruct (flood_row pyfloat (Py.split line)) as [r|]; simpl;
        rewrite ?app_nil_r;
        destruct (Py.contains surcharge_marker line); simpl; try reflexivity;
        destruct (in_surcharge_table s); simpl; try reflexivity;
        now destruct (surcharge_row pyfloat (Py.split line)).
  - rewrite app_nil_r.
    destruct (Py.contains surcharge_marker line); simpl; [reflexivity|].
    destruct (in_surcharge_table s); simpl; [|reflexivity].
    destruct (blank line && nonempty (surcharged_links s)); simpl;
      [reflexivity|].
    now destruct (surcharge_row pyfloat (Py.split line)).
Qed.

(** What one line adds to the surcharge accumulator. *)
Lemma tables_surcharged (s : state F) (line : string) :
  surcharged_links (tables pyfloat s line) =
  surcharged_links s ++
    (if negb (Py.contains flooding_marker line)
        && negb (Py.contains surcharge_marker line)
        && in_surcharge_table s
     then opt_list (surcharge_row pyfloat (Py.split line)) else []).
Proof.
  unfold tables, surcharge_part, flooding_data, surcharge_data.
  destruct (Py.contains flooding_marker line); simpl;
    [now rewrite app_nil_r|].
  destruct (in_flooding_table s) eqn:Hin; simpl.
  - destruct (blank line) eqn:B; simpl.
    + rewrite (blank_split _ B), flood_row_nil, surcharge_row_nil. simpl.
      rewrite (blank_no_surcharge_marker _ B). simpl.
      destruct (nonempty (flooded_nodes s)); simpl;
        [now destruct (in_surcharge_table s); rewrite app_nil_r|].
      destruct (in_surcharge_table s); simpl; [|now rewrite app_nil_r].
      destruct (nonempty (surcharged_links s)); simpl; now rewrite app_nil_r.
    + destruct (flood_row pyfloat (Py.split line)) as [r|]; simpl;
        destruct (Py.contains surcharge_marker line); simpl;
        rewrite ?app_nil_r; try reflexivity;
        destruct (in_surcharge_table s); simpl;
        rewrite ?app_nil_r; try reflexivity;
        destruct (surcharge_row pyfloat (Py.split line)); simpl;
        now rewrite ?app_nil_r.
  - destruct (Py.contains surcharge_marker line); simpl;
      [now rewrite app_nil_r|].
    destruct (in_surcharge_table s); simpl; [|now rewrite app_nil_r].
    destruct (blank line) eqn:B; simpl.
    + rewrite (blank_split _ B), surcharge_row_nil. simpl.
      destruct (nonempty (surcharged_links s)); simpl; now rewrite app_nil_r.
    + destruct (surcharge_row pyfloat (Py.split line)); simpl; now rewrite ?app_nil_r.
Qed.

Lemma tables_in_flooding (s : state F) (line : string) :
  in_flooding_table (tables pyfloat s line) =
  if Py.contains flooding_marker line then true
  else if in_flooding_table s && blank line && nonempty (flooded_nodes s)
  then false
  else if Py.contains surcharge_marker line then false
  else in_flooding_table s.
Proof.
  unfold tables, surcharge_part, flooding_data, surcharge_data.
  destruct (Py.contains flooding_marker line); simpl; [reflexivity|].
  destruct (in_flooding_table s) eqn:Hin; simpl.
  - destruct (blank line && nonempty (flooded_nodes s)); simpl;
      [reflexivity|].
    destruct (flood_row pyfloat (Py.split line)); simpl;
      destruct (Py.contains surcharge_marker line); simpl; try reflexivity;
      destruct (in_surcharge_table s); simpl; auto;
      destruct (blank line && nonempty (surcharged_links s)); simpl; auto;
      now destruct (surcharge_row pyfloat (Py.split line)).
  - destruct (Py.contains surcharge_marker line); simpl; [reflexivity|].
    destruct (in_surcharge_table s); simpl; auto.
    destruct (blank line && nonempty (surcharged_links s)); simpl; auto.
    now destruct (surcharge_row pyfloat (Py.split line)).
Qed.

Lemma tables_in_surcharge (s : state F) (line : string) :
  in_surcharge_table (tables pyfloat s line) =
  if Py.contains flooding_marker line then in_surcharge_table s
  else if in_flooding_table s && blank line && nonempty (flooded_nodes s)
  then in_surcharge_table s
  else if Py.contains surcharge_marker line then true
  else if in_surcharge_table s && blank line
          && nonempty (surcharged_links s)
  then false
  else in_surcharge_table s.
Proof.
  unfold tables, surcharge_part, flooding_data, surcharge_data.
  destruct (Py.contains flooding_marker line); simpl; [reflexivity|].
  destruct (in_flooding_table s) eqn:Hin; simpl.
  - destruct (blank line && nonempty (flooded_nodes s)); simpl;
      [reflexivity|].
    destruct (flood_row pyfloat (Py.split line)); simpl;
      destruct (Py.contains surcharge_marker line); simpl; try reflexivity;
      destruct (in_surcharge_table s) eqn:Hs; simpl; rewrite ?Hs; auto;
      destruct (blank line && nonempty (surcharged_links s)); simpl; auto;
      destruct (surcharge_row pyfloat (Py.split line)); simpl; now rewrite ?Hs.
  - destruct (Py.contains surcharge_marker line); simpl; [reflexivity|].
    destruct (in_surcharge_table s) eqn:Hs; simpl; rewrite ?Hs; auto.
    destruct (blank line && nonempty (surcharged_links s)); simpl; auto.
    destruct (surcharge_row pyfloat (Py.split line)); simpl; now rewrite ?Hs.
Qed.

(** The table part of the body leaves the continuity figures alone. *)
Lemma tables_figures (s : state F) (line : string) :
  continuity_error_runoff (tables pyfloat s line) = continuity_error_runoff s /\
  continuity_error_routing (tables pyfloat s line) = continuity_error_routing s.
Proof.
  unfold tables, surcharge_part, flooding_data, surcharge_data.
  destruct (Py.contains flooding_marker line); simpl; [auto|].
  destruct (in_flooding_table s); simpl.
  - destruct (blank line && nonempty (flooded_nodes s)); simpl; [auto|].
    destruct (flood_row pyfloat (Py.split line)); simpl;
      destruct (Py.contains surcharge_marker line); simpl; auto;
      destruct (in_surcharge_table s); simpl; auto;
      destruct (blank line && nonempty (surcharged_links s)); simpl; auto;
      now destruct (surcharge_row pyfloat (Py.split line)).
  - destruct (Py.contains surcharge_marker line); simpl; [auto|].
    destruct (in_surcharge_table s); simpl; auto.
    destruct (blank line && nonempty (surcharged_links s)); simpl; auto.
    now destruct (surcharge_row pyfloat (Py.split line)).
Qed.

(** One line of the file extends both accumulators at their ends. *)
Lemma step_extends (s s' : state F) (line : string) :
  step pyfloat s line = Ok s' ->
  (exists new, flooded_nodes s' = flooded_nodes s ++ new) /\
  (exists new, surcharged_links s' = surcharged_links s ++ new).
Proof.
  intros H. apply step_ok in H as (s1 & C & ->).
  apply continuity_check_tables in C as (_ & _ & <- & <-).
  rewrite tables_flooded, tables_surcharged. split; eexists; reflexivity.
Qed.

Lemma loop_extends (lines : list string) (s s' : state F) :
  loop pyfloat s lines = Ok s' ->
  (exists new, flooded_nodes s' = flooded_nodes s ++ new) /\
  (exists new, surcharged_links s' = surcharged_links s ++ new).
Proof.
  revert s. induction lines as [|line rest IH]; intros s; simpl.
  - intros [= <-]. split; exists []; now rewrite app_nil_r.
  - unfold bind. destruct (step pyfloat s line) as [s1|e] eqn:E;
      [|discriminate].
    intros H. apply IH in H as [(n1 & ->) (n2 & ->)].
    apply step_extends in E as [(m1 & ->) (m2 & ->)].
    split; eexists; now rewrite <- app_assoc.
Qed.

End EngineFacts.

(** ** The numeric test on the second token *)

Section NumericTest.

Lemma all_chars_app (p : ascii -> bool) (a b : string) :
  Py.all_chars p (a ++ b)%string = Py.all_chars p a && Py.all_chars p b.
Proof.
  induction a as [|c a IH]; simpl; [reflexivity|].
  now rewrite IH, andb_assoc.
Qed.

Lemma str_isdigit_iff (s : string) :
  Py.str_isdigit s = true <->
  s <> EmptyString /\ Py.all_chars Py.isdigit s = true.
Proof.
  destruct s as [|c s]; simpl.
  - split; [discriminate | now intros [N _]].
  - split; [now split | now intros [_ H]].
Qed.

Lemma isdigit_not_point (c : ascii) :
  Py.isdigit c = true -> Ascii.eqb c "." = false.
Proof.
  intros H. destruct (Ascii.eqb_spec c "."); [subst; discriminate | reflexivity].
Qed.

Lemma remove_first_digits (s : string) :
  Py.all_chars Py.isdigit s = true -> Py.remove_first "." s = s.
Proof.
  induction s as [|c s IH]; simpl; [reflexivity|].
  intros H. apply andb_true_iff in H as [Hc Hs].
  now rewrite (isdigit_not_point _ Hc), IH.
Qed.

Lemma remove_first_point (a b : string) :
  Py.all_chars Py.isdigit a = true ->
  Py.remove_first "." (a ++ String "." b)%string = (a ++ b)%string.
Proof.
  induction a as [|c a IH]; simpl; [reflexivity|].
  intros H. apply andb_true_iff in H as [Hc Hs].
  now rewrite (isdigit_not_point _ Hc), IH.
Qed.

Lemma remove_first_shape (tok : string) :
  Py.all_chars Py.isdigit (Py.remove_first "." tok) = true ->
  Py.all_chars Py.isdigit tok = true \/
  exists a b, tok = (a ++ String "." b)%string /\
              Py.all_chars Py.isdigit a = true /\
              Py.all_chars Py.isdigit b = true.
Proof.
  induction tok as [|d t IH]; simpl; [now left|].
  destruct (Ascii.eqb_spec d ".") as [->|N]; simpl.
  - intros H. right. now exists EmptyString, t.
  - intros H. apply andb_true_iff in H as [Hd Ht].
    destruct (IH Ht) as [All | (a & b & -> & Ha & Hb)].
    + left. now rewrite Hd.
    + right. exists (String d a), b. simpl. now rewrite Hd.
Qed.

(** [tok.replace('.','',1).isdigit()] holds exactly of the tokens that
    have the shape of a non-negative decimal number. *)
Lemma looks_numeric_iff (tok : string) :
  looks_numeric tok = true <-> decimal_shape tok.
Proof.
  unfold looks_numeric, decimal_shape. rewrite str_isdigit_iff. split.
  - intros [N H]. destruct (remove_first_shape tok H)
      as [All | (a & b & -> & Ha & Hb)].
    + left. split; [|exact All]. now rewrite remove_first_digits in N.
    + right. exists a, b. rewrite remove_first_point in N by exact Ha.
      now repeat split.
  - intros [[N All] | (a & b & -> & N & Ha & Hb)].
    + now rewrite remove_first_digits.
    + rewrite remove_first_point by exact Ha.
      split; [exact N|]. now rewrite all_chars_app, Ha, Hb.
Qed.

End NumericTest.

(** ** The continuity figures *)

Section Continuity.

Variable F : Type.
Variable pyfloat : string -> option F.

Lemma loop_app (l1 l2 : list string) (s : state F) :
  loop pyfloat s (l1 ++ l2) =
  bind (loop pyfloat s l1) (fun s' => loop pyfloat s' l2).
Proof.
  revert s. induction l1 as [|line l1 IH]; intros s; simpl; [reflexivity|].
  unfold bind at 1 3. destruct (step pyfloat s line); [apply IH | reflexivity].
Qed.

Lemma record_continuity_figures (vals : list F) (val : F) (s : state F) :
  figures_of vals s -> figures_of (vals ++ [val]) (record_continuity val s).
Proof.
  unfold figures_of, record_continuity. intros [H0 H1].
  destruct vals as [|a [|b vals]]; simpl in *; rewrite H0; simpl;
    rewrite ?H1; auto.
Qed.

Lemma step_figures (vals : list F) (s s' : state F) (line : string) :
  step pyfloat s line = Ok s' ->
  figures_of vals s -> figures_of (vals ++ continuity_value pyfloat line) s'.
Proof.
  intros H Hf. apply step_ok in H as (s1 & C & ->).
  unfold figures_of. destruct (tables_figures F pyfloat s1 line) as [-> ->].
  revert C. unfold continuity_check, continuity_value.
  destruct (Py.contains continuity_label line).
  - destruct (Py.last_item (Py.split line)) as [tok|]; [|discriminate].
    destruct (pyfloat tok) as [val|]; [|discriminate].
    intros [= <-]. now apply record_continuity_figures.
  - intros [= <-]. now rewrite app_nil_r.
Qed.

Lemma loop_figures (lines : list string) (vals : list F) (s s' : state F) :
  loop pyfloat s lines = Ok s' ->
  figures_of vals s -> figures_of (vals ++ continuity_values pyfloat lines) s'.
Proof.
  revert vals s. induction lines as [|line rest IH]; intros vals s; simpl.
  - intros [= <-]. now rewrite app_nil_r.
  - unfold bind. destruct (step pyfloat s line) as [s1|e] eqn:E; [|discriminate].
    intros H Hf. rewrite app_assoc. apply (IH _ s1 H).
    now apply (step_figures vals s).
Qed.

(** When the pass completes, the runoff figure is the first value of the
    label lines, the routing figure the second, and later ones are dropped. *)
Lemma positional_figures (lines : list string) (s : state F) :
  loop pyfloat initial lines = Ok s ->
  continuity_error_runoff s = nth_error (continuity_values pyfloat lines) 0 /\
  continuity_error_routing s = nth_error (continuity_values pyfloat lines) 1.
Proof.
  intros H. apply (loop_figures lines [] initial s H). now split.
Qed.

(** The pass completes exactly when no label line is malformed. *)
Lemma loop_completes_iff (lines : list string) (s : state F) :
  (exists s', loop pyfloat s lines = Ok s') <->
  (forall line, In line lines -> ~ malformed_label_line pyfloat line).
Proof.
  revert s. induction lines as [|line rest IH]; intros s; simpl.
  - split; [intros _ l [] | intros _; now exists s].
  - unfold bind. destruct (step pyfloat s line) as [s1|e] eqn:E.
    + rewrite IH. split.
      * intros H l [<-|Hl]; [|now apply H].
        intros [L (tok & T & P)].
        assert (R : step pyfloat s line = Raise (ValueError tok)).
        { apply step_raise, continuity_check_raises. split; [exact L|].
          now exists tok. }
        congruence.
      * intros H l Hl. apply H. now right.
    + split; [intros [s' H]; discriminate|].
      intros H. exfalso. apply (H line); [now left|].
      apply step_raise, continuity_check_raises in E as [L (tok & T & P & _)].
      split; [exact L | now exists tok].
Qed.

(** A malformed label line aborts the pass with the [ValueError] of its
    last token, whatever follows it. *)
Lemma malformed_label_aborts (pre post : list string) (line tok : string)
    (s s1 : state F) :
  loop pyfloat s pre = Ok s1 ->
  Py.contains continuity_label line = true ->
  Py.last_item (Py.split line) = Some tok ->
  pyfloat tok = None ->
  loop pyfloat s (pre ++ line :: post) = Raise (ValueError tok).
Proof.
  intros H L T P. rewrite loop_app, H. simpl.
  assert (R : step pyfloat s1 line = Raise (ValueError tok)).
  { apply step_raise, continuity_check_raises. split; [exact L|]. now exists tok. }
  now rewrite R.
Qed.

End Continuity.

(** ** The row extractors and the table states *)

Section Tables.

Variable F : Type.
Variable pyfloat : string -> option F.

Lemma flood_row_iff (parts : list string) (r : FloodRecord F) :
  flood_row pyfloat parts = Some r <-> flood_accepts pyfloat parts r.
Proof.
  unfold flood_row, flood_accepts. rewrite <- looks_numeric_iff.
  destruct (Nat.leb_spec 6 (List.length parts)) as [L|L]; simpl.
  2:{ split; [discriminate | intros [L' _]; lia]. }
  destruct (looks_numeric (Py.item parts 1)); simpl.
  2:{ split; [discriminate | now intros (_ & N & _)]. }
  destruct (String.eqb_spec (Py.item parts 0) "Node") as [E|E]; simpl.
  1:{ split; [discriminate | now intros (_ & _ & N & _)]. }
  destruct (pyfloat (Py.item parts 2)) as [a|].
  2:{ split; [discriminate | now intros (_ & _ & _ & _ & N & _)]. }
  destruct (pyfloat (Py.item parts 5)) as [b|].
  2:{ split; [discriminate | now intros (_ & _ & _ & _ & _ & N)]. }
  split.
  - intros [= <-]. simpl. now repeat split.
  - intros (_ & _ & _ & Hn & [= Ha] & [= Hb]).
    destruct r as [n m t]. simpl in *. now subst.
Qed.

(** Every row in the accumulators was read by the extractor from a line of
    the file. *)
Lemma loop_provenance (lines : list string) (s s' : state F) :
  loop pyfloat s lines = Ok s' ->
  (forall x, In x (flooded_nodes s') ->
     In x (flooded_nodes s) \/
     exists line, In line lines /\ flood_row pyfloat (Py.split line) = Some x) /\
  (forall x, In x (surcharged_links s') ->
     In x (surcharged_links s) \/
     exists line, In line lines /\ surcharge_row pyfloat (Py.split line) = Some x).
Proof.
  revert s. induction lines as [|line rest IH]; intros s; simpl.
  - intros [= <-]. split; intros x Hx; now left.
  - unfold bind. destruct (step pyfloat s line) as [s1|e] eqn:E; [|discriminate].
    intros H. destruct (IH s1 H) as [Hf Hs].
    apply step_ok in E as (s0 & C & ->).
    apply continuity_check_tables in C as (_ & _ & Ef & Es).
    split; intros x Hx.
    + destruct (Hf x Hx) as [Hx1 | (l & Hl & Hr)].
      * rewrite tables_flooded, Ef in Hx1. apply in_app_or in Hx1 as [Hx1|Hx1];
          [now left|]. right. exists line. split; [now left|].
        destruct (negb (Py.contains flooding_marker line) && in_flooding_table s0);
          [|now destruct Hx1].
        destruct (flood_row pyfloat (Py.split line)); simpl in Hx1;
          [|now destruct Hx1].
        destruct Hx1 as [->|[]]. reflexivity.
      * right. exists l. split; [now right | exact Hr].
    + destruct (Hs x Hx) as [Hx1 | (l & Hl & Hr)].
      * rewrite tables_surcharged, Es in Hx1.
        apply in_app_or in Hx1 as [Hx1|Hx1]; [now left|].
        right. exists line. split; [now left|].
        destruct (negb (Py.contains flooding_marker line)
                  && negb (Py.contains surcharge_marker line)
                  && in_surcharge_table s0); [|now destruct Hx1].
        destruct (surcharge_row pyfloat (Py.split line)); simpl in Hx1;
          [|now destruct Hx1].
        destruct Hx1 as [->|[]]. reflexivity.
      * right. exists l. split; [now right | exact Hr].
Qed.

(** The accumulators grow in file order. *)
Lemma loop_read_in_order (lines : list string) (s s' : state F) :
  loop pyfloat s lines = Ok s' ->
  (exists new, flooded_nodes s' = flooded_nodes s ++ new /\
     read_in_order (fun line => flood_row pyfloat (Py.split line)) lines new) /\
  (exists new, surcharged_links s' = surcharged_links s ++ new /\
     read_in_order (fun line => surcharge_row pyfloat (Py.split line)) lines new).
Proof.
  revert s. induction lines as [|line rest IH]; intros s; simpl.
  - intros [= <-]. split; exists []; (split; [now rewrite app_nil_r|]);
      now exists [].
  - unfold bind. destruct (step pyfloat s line) as [s1|e] eqn:E; [|discriminate].
    intros H.
    destruct (IH s1 H) as [(nf & Hf & sf & Lf & Rf) (ns & Hs & ss & Ls & Rs)].
    apply step_ok in E as (s0 & C & ->).
    apply continuity_check_tables in C as (_ & _ & Ef & Es).
    rewrite tables_flooded, Ef in Hf. rewrite tables_surcharged, Es in Hs.
    rewrite <- app_assoc in Hf, Hs. split.
    + eexists. split; [exact Hf|].
      exists (negb (Py.contains flooding_marker line) && in_flooding_table s0 :: sf).
      split; [simpl; now rewrite Lf|]. simpl. now rewrite Rf.
    + eexists. split; [exact Hs|].
      exists (negb (Py.contains flooding_marker line)
              && negb (Py.contains surcharge_marker line)
              && in_surcharge_table s0 :: ss).
      split; [simpl; now rewrite Ls|]. simpl. now rewrite Rs.
Qed.

(** Outside the flooding table and without its marker, nothing enters the
    flooding accumulator. *)
Lemma loop_no_flooding_marker (lines : list string) (s s' : state F) :
  (forall line, In line lines -> Py.contains flooding_marker line = false) ->
  in_flooding_table s = false ->
  loop pyfloat s lines = Ok s' ->
  in_flooding_table s' = false /\ flooded_nodes s' = flooded_nodes s.
Proof.
  revert s. induction lines as [|line rest IH]; intros s N I; simpl.
  - now intros [= <-].
  - unfold bind. destruct (step pyfloat s line) as [s1|e] eqn:E; [|discriminate].
    intros H. apply step_ok in E as (s0 & C & ->).
    apply continuity_check_tables in C as (If & _ & Ef & _).
    assert (M : Py.contains flooding_marker line = false) by (apply N; now left).
    apply IH in H.
    + destruct H as [H1 H2]. split; [exact H1|].
      rewrite H2, tables_flooded, M, If, I, Ef. simpl. now rewrite app_nil_r.
    + intros l Hl. apply N. now right.
    + rewrite tables_in_flooding, M, If, I. simpl.
      now destruct (Py.contains surcharge_marker line).
Qed.

Lemma loop_no_surcharge_marker (lines : list string) (s s' : state F) :
  (forall line, In line lines -> Py.contains surcharge_marker line = false) ->
  in_surcharge_table s = false ->
  loop pyfloat s lines = Ok s' ->
  in_surcharge_table s' = false /\ surcharged_links s' = surcharged_links s.
Proof.
  revert s. induction lines as [|line rest IH]; intros s N I; simpl.
  - now intros [= <-].
  - unfold bind. destruct (step pyfloat s line) as [s1|e] eqn:E; [|discriminate].
    intros H. apply step_ok in E as (s0 & C & ->).
    apply continuity_check_tables in C as (_ & Is & _ & Es).
    assert (M : Py.contains surcharge_marker line = false) by (apply N; now left).
    apply IH in H.
    + destruct H as [H1 H2]. split; [exact H1|].
      rewrite H2, tables_surcharged, M, Is, I, Es.
      rewrite !andb_false_r. now rewrite app_nil_r.
    + intros l Hl. apply N. now right.
    + rewrite tables_in_surcharge, M, Is, I. simpl.
      now repeat match goal with |- context [if ?b then _ else _] => destruct b end.
Qed.

End Tables.

(** ** Properties of the extraction engine *)

Section Properties.

Variable F : Type.
Variable pyfloat : string -> option F.
Variable flt : F -> F -> bool.


(** C6.  A blank line never raises and adds no row.  It takes the machine
    out of a table only if that table's accumulator already holds a row; in
    a table whose accumulator is still empty the machine stays inside, and
    the next line is handed to that table's extractor. *)
Theorem blank_line_exit_guard (s : state F) (line : string) :
  blank line = true ->
  exists s',
    step pyfloat s line = Ok s' /\
    flooded_nodes s' = flooded_nodes s /\
    surcharged_links s' = surcharged_links s /\
    (in_flooding_table s = true -> in_flooding_table s' = false ->
     flooded_nodes s <> []) /\
    (in_surcharge_table s = true -> in_surcharge_table s' = false ->
     surcharged_links s <> []) /\
    (in_flooding_table s = true -> flooded_nodes s = [] ->
     in_flooding_table s' = true /\
     forall next s'',
       Py.contains flooding_marker next = false ->
       step pyfloat s' next = Ok s'' ->
       flooded_nodes s'' = opt_list (flood_row pyfloat (Py.split next))) /\
    (in_surcharge_table s = true -> surcharged_links s = [] ->
     in_surcharge_table s' = true /\
     forall next s'',
       Py.contains flooding_marker next = false ->
       Py.contains surcharge_marker next = false ->
       step pyfloat s' next = Ok s'' ->
       surcharged_links s'' = opt_list (surcharge_row pyfloat (Py.split next))).
Proof.
  intros B. exists (tables pyfloat s line).
  pose proof (blank_no_flooding_marker _ B) as MF.
  pose proof (blank_no_surcharge_marker _ B) as MS.
  assert (Ef : flooded_nodes (tables pyfloat s line) = flooded_nodes s).
  { rewrite tables_flooded, (blank_split _ B), flood_row_nil. simpl.
    destruct (_ && _); apply app_nil_r. }
  assert (Es : surcharged_links (tables pyfloat s line) = surcharged_links s).
  { rewrite tables_surcharged, (blank_split _ B), surcharge_row_nil. simpl.
    destruct (_ && _); apply app_nil_r. }
  split; [apply step_no_label, blank_no_label, B|].
  split; [exact Ef|]. split; [exact Es|].
  rewrite tables_in_flooding, tables_in_surcharge, MF, MS, B.
  rewrite !andb_true_r.
  split; [|split; [|split]].
  - intros I. rewrite I. simpl.
    destruct (flooded_nodes s); simpl; [congruence | discriminate].
  - intros I. rewrite I. simpl.
    destruct (in_flooding_table s && nonempty (flooded_nodes s)); [congruence|].
    destruct (surcharged_links s); simpl; [congruence | discriminate].
  - intros I E. split; [now rewrite I, E|].
    intros next s'' M H. apply step_ok in H as (s1 & C & ->).
    apply continuity_check_tables in C as (I1 & _ & E1 & _).
    rewrite tables_flooded, M, I1, E1, Ef, E.
    rewrite tables_in_flooding, MF, MS, B, I, E. reflexivity.
  - intros I E. split.
    + rewrite I, E. simpl.
      now destruct (in_flooding_table s && nonempty (flooded_nodes s)).
    + intros next s'' M1 M2 H. apply step_ok in H as (s1 & C & ->).
      apply continuity_check_tables in C as (_ & I1 & _ & E1).
      rewrite tables_surcharged, M1, M2, I1, E1, Es, E.
      rewrite tables_in_surcharge, MF, MS, B, I, E. simpl.
      now destruct (in_flooding_table s && true && nonempty (flooded_nodes s)).
Qed.


(** C10.  The flooding marker seen in the surcharge table leaves the
    surcharge table active, so both tables are active after it; a later
    line that both extractors accept is then appended to both
    accumulators. *)
Theorem overlapping_tables (s s1 : state F) (marker : string) :
  in_surcharge_table s = true ->
  Py.contains flooding_marker marker = true ->
  step pyfloat s marker = Ok s1 ->
  in_flooding_table s1 = true /\
  in_surcharge_table s1 = true /\
  forall row parts a b c d s2,
    Py.contains flooding_marker row = false ->
    Py.contains surcharge_marker row = false ->
    Py.split row = parts ->
    6 <= List.length parts ->
    looks_numeric (Py.item parts 1) = true ->
    Py.item parts 0 <> "Node" ->
    Py.item parts 0 <> "Conduit" ->
    pyfloat (Py.item parts 1) = Some a ->
    pyfloat (Py.item parts 2) = Some b ->
    pyfloat (Py.item parts 3) = Some c ->
    pyfloat (Py.item parts 5) = Some d ->
    step pyfloat s1 row = Ok s2 ->
    flooded_nodes s2 =
      flooded_nodes s1 ++
      [{| node := Py.item parts 0; MaxFloodingRate := b; TotalFloodVol := d |}] /\
    surcharged_links s2 =
      surcharged_links s1 ++
      [{| link := Py.item parts 0; HoursSurcharged := a;
          HoursAboveFullNormal := c |}] /\
    in_flooding_table s2 = true /\
    in_surcharge_table s2 = true.
Proof.
  intros I M H. apply step_ok in H as (s0 & C & ->).
  apply continuity_check_tables in C as (I0 & J0 & E0 & G0).
  assert (If : in_flooding_table (tables pyfloat s0 marker) = true).
  { now rewrite tables_in_flooding, M. }
  assert (Is : in_surcharge_table (tables pyfloat s0 marker) = true).
  { now rewrite tables_in_surcharge, M, J0. }
  split; [exact If|]. split; [exact Is|].
  intros row parts a b c d s2 M1 M2 P L N H0 H0' Pa Pb Pc Pd H.
  apply step_ok in H as (s3 & C & ->).
  apply continuity_check_tables in C as (I3 & J3 & E3 & G3).
  assert (NB : blank row = false).
  { destruct (blank row) eqn:B; [|reflexivity].
    apply blank_split in B. rewrite P in B. rewrite B in L. simpl in L. lia. }
  assert (Rf : flood_row pyfloat parts =
               Some {| node := Py.item parts 0; MaxFloodingRate := b;
                       TotalFloodVol := d |}).
  { unfold flood_row. rewrite N, Pb, Pd.
    apply Nat.leb_le in L. rewrite L.
    apply String.eqb_neq in H0. now rewrite H0. }
  assert (Rs : surcharge_row pyfloat parts =
               Some {| link := Py.item parts 0; HoursSurcharged := a;
                       HoursAboveFullNormal := c |}).
  { unfold surcharge_row. rewrite N, Pa, Pc.
    assert (L5 : (5 <=? List.length parts)%nat = true) by (apply Nat.leb_le; lia).
    rewrite L5. apply String.eqb_neq in H0'. now rewrite H0'. }
  rewrite tables_flooded, tables_surcharged, tables_in_flooding,
    tables_in_surcharge, M1, M2, NB, I3, J3, E3, G3, If, Is, P, Rf, Rs.
  simpl. auto.
Qed.

End Properties.

(** ** The returned dictionary *)

Section Results.

Variable F : Type.
Variable pyfloat : string -> option F.
Variable flt : F -> F -> bool.

Lemma parse_success (fs : string -> file) (rpt : string) (inp : option string)
    (lines : list string) (failure : option string) (r : result F) :
  fs rpt = Text lines failure ->
  parse_swmm_results pyfloat flt fs rpt inp = Success r ->
  exists s, loop pyfloat initial lines = Ok s /\ failure = None /\
            r = post_process flt s.
Proof.
  unfold parse_swmm_results, scan, bind. intros ->.
  destruct (loop pyfloat initial lines) as [s|e]; [|discriminate].
  destruct failure; [discriminate|]. intros [= <-]. now exists s.
Qed.


Lemma continuity_values_nonempty (lines : list string) (s s' : state F) :
  loop pyfloat s lines = Ok s' ->
  (exists line, In line lines /\ Py.contains continuity_label line = true) ->
  continuity_values pyfloat lines <> [].
Proof.
  revert s. induction lines as [|line rest IH]; intros s; simpl.
  - now intros _ (l & [] & _).
  - unfold bind. destruct (step pyfloat s line) as [s1|e] eqn:E; [|discriminate].
    intros H (l & [<-|Hl] & Lb).
    + apply step_ok in E as (s0 & C & _). revert C.
      unfold continuity_check, continuity_value. rewrite Lb.
      destruct (Py.last_item (Py.split line)) as [tok|]; [|discriminate].
      destruct (pyfloat tok); [|discriminate]. discriminate.
    + intros N. apply app_eq_nil in N as [_ N]. revert N.
      apply (IH s1 H). now exists l.
Qed.

(** C4 as the code has it.  When extraction succeeds, a category without
    accepted rows comes back as [None] in [top_flooded_nodes] or
    [top_surcharged_conduits] and as the empty list in [raw_flooded_list] or
    [raw_surcharged_list].  A file without the marker of a table has no
    accepted row for it, and its continuity figures are the first two
    values of its label lines, the runoff figure being there as soon as one
    line carries the label. *)
Theorem empty_category_is_none (fs : string -> file) (rpt : string)
    (inp : option string) (lines : list string) (failure : option string)
    (r : result F) :
  fs rpt = Text lines failure ->
  parse_swmm_results pyfloat flt fs rpt inp = Success r ->
  (accepted_flooded pyfloat lines = [] ->
   top_flooded_nodes r = None /\ raw_flooded_list r = []) /\
  (accepted_surcharged pyfloat lines = [] ->
   top_surcharged_conduits r = None /\ raw_surcharged_list r = []) /\
  ((forall line, In line lines -> Py.contains flooding_marker line = false) ->
   accepted_flooded pyfloat lines = []) /\
  ((forall line, In line lines -> Py.contains surcharge_marker line = false) ->
   accepted_surcharged pyfloat lines = []) /\
  continuity_error_runoff_percent r = nth_error (continuity_values pyfloat lines) 0 /\
  continuity_error_routing_percent r = nth_error (continuity_values pyfloat lines) 1 /\
  ((exists line, In line lines /\ Py.contains continuity_label line = true) ->
   continuity_error_runoff_percent r <> None).
Proof.
  intros Hfs H. destruct (parse_success _ _ _ _ _ _ Hfs H) as (s & L & _ & ->).
  unfold accepted_flooded, accepted_surcharged. rewrite L.
  destruct (positional_figures F pyfloat lines s L) as [R0 R1].
  split; [|split; [|split; [|split; [|split; [|split]]]]].
  - unfold post_process, sorted_flooded.
    cbn [top_flooded_nodes raw_flooded_list]. now intros ->.
  - unfold post_process, sorted_surcharged.
    cbn [top_surcharged_conduits raw_surcharged_list]. now intros ->.
  - intros N.
    now destruct (loop_no_flooding_marker F pyfloat lines initial s N eq_refl L).
  - intros N.
    now destruct (loop_no_surcharge_marker F pyfloat lines initial s N eq_refl L).
  - exact R0.
  - exact R1.
  - intros Hl. unfold post_process. cbn [continuity_error_runoff_percent].
    rewrite R0.
    pose proof (continuity_values_nonempty lines initial s L Hl) as N.
    now destruct (continuity_values pyfloat lines).
Qed.

(** C9.  The companion path is never looked at: any two values of it, given
    or not, give the same outcome. *)
Theorem inp_path_ignored (fs : string -> file) (rpt : string)
    (inp1 inp2 : option string) :
  parse_swmm_results pyfloat flt fs rpt inp1 =
  parse_swmm_results pyfloat flt fs rpt inp2.
Proof. reflexivity. Qed.

(** A missing report gives the not-found dictionary, and only a missing
    report does. *)
Lemma not_found_iff (fs : string -> file) (rpt : string) (inp : option string) :
  fs rpt = Missing <->
  parse_swmm_results pyfloat flt fs rpt inp = NotFound rpt.
Proof.
  unfold parse_swmm_results. destruct (fs rpt) as [|lines failure].
  - now split.
  - split; [discriminate|]. now destruct (scan pyfloat lines failure).
Qed.

(** What the stream-error dictionary reports: a failed read of a file whose
    lines were all processed, or the [ValueError] of a malformed label
    line. *)
Lemma stream_error_causes (fs : string -> file) (rpt : string)
    (inp : option string) (e : exn) :
  parse_swmm_results pyfloat flt fs rpt inp = StreamError e ->
  exists lines failure, fs rpt = Text lines failure /\
    ((exists detail, failure = Some detail /\ e = OSError detail) \/
     (exists line tok, In line lines /\
        Py.contains continuity_label line = true /\
        Py.last_item (Py.split line) = Some tok /\
        pyfloat tok = None /\ e = ValueError tok)).
Proof.
  unfold parse_swmm_results. destruct (fs rpt) as [|lines failure];
    [discriminate|]. intros H. exists lines, failure. split; [reflexivity|].
  unfold scan, bind in H.
  destruct (loop pyfloat initial lines) as [s|e'] eqn:L.
  - destruct failure as [detail|]; [|discriminate].
    injection H as <-. left. now exists detail.
  - injection H as ->. right. clear -L. revert L. generalize (@initial F).
    induction lines as [|line rest IH]; intros s; simpl; [discriminate|].
    unfold bind. destruct (step pyfloat s line) as [s1|e1] eqn:E.
    + intros H. destruct (IH s1 H) as (l & tok & Hl & Hr).
      exists l, tok. split; [now right | exact Hr].
    + intros [= ->].
      apply step_raise, continuity_check_raises in E as [Lb (tok & T & P & ->)].
      exists line, tok. split; [now left | auto].
Qed.

End Results.

(** ** Runs on the sample reports *)

Section DecimalOrder.

Lemma decimal_lt_iff (a b : Q) : Decimal.lt a b = true <-> (a < b)%Q.
Proof. unfold Decimal.lt, Qlt. apply Z.ltb_lt. Qed.

Lemma decimal_lt_false (a b : Q) : Decimal.lt a b = false <-> (b <= a)%Q.
Proof.
  rewrite <- not_true_iff_false, decimal_lt_iff. split.
  - apply Qnot_lt_le.
  - apply Qle_not_lt.
Qed.

(** Plain decimal values are ordered by a strict weak order. *)
Lemma decimal_weak_order (ks : list Q) : weak_order_on Decimal.lt ks.
Proof.
  split.
  - intros a b _ _ H. apply decimal_lt_false, Qlt_le_weak.
    now apply decimal_lt_iff.
  - intros a b c _ _ _ H1 H2. apply decimal_lt_false.
    apply decimal_lt_false in H1, H2. now apply (Qle_trans _ b).
Qed.

End DecimalOrder.

Section SampleRuns.

(** The scenario of two label lines: the first value is the runoff figure
    and the second the routing figure. *)
Lemma two_label_lines :
  exists r, Decimal.run Sample.continuity_only = Success r /\
    Decimal.parse "-0.029" = continuity_error_runoff_percent r /\
    Decimal.parse "0.441" = continuity_error_routing_percent r.
Proof. eexists. split; [reflexivity|]. now split. Qed.

(** The flooding rows of the second section follow the row of the first. *)
Lemma repeated_section_rows :
  map node (accepted_flooded Decimal.parse Sample.repeated_section) =
  ["J12"; "J44"].
Proof. reflexivity. Qed.

(** The row after the flooding marker is in both lists of the result. *)
Lemma overlap_run :
  exists r, Decimal.run Sample.overlap = Success r /\
    map node (raw_flooded_list r) = ["C7"] /\
    map link (raw_surcharged_list r) = ["C7"].
Proof. eexists. split; [reflexivity|]. now split. Qed.

(** C1.  The report [Sample.no_number] has a label line whose last token is
    not a number: the invocation returns the stream-error dictionary with
    the [ValueError] of that token, not a result. *)
Theorem malformed_label_line_is_fatal :
  malformed_label_line Decimal.parse "  Continuity Error (%) .....      n/a" /\
  Decimal.run Sample.no_number = StreamError (ValueError "n/a").
Proof.
  split; [|reflexivity]. split; [reflexivity|]. now exists "n/a".
Qed.

(** C2.  In [Sample.overflowed_field] the label lines that carry a number
    are the second, with -0.029, and the third, with 0.441; the invocation
    returns the stream-error dictionary and records neither. *)
Theorem figures_lost_after_malformed_line :
  continuity_values Decimal.parse Sample.overflowed_field =
    [(-29 # 1000)%Q; (441 # 1000)%Q] /\
  Decimal.run Sample.overflowed_field = StreamError (ValueError "********").
Proof. split; reflexivity. Qed.

(** C8.  The report [Sample.cut_short] exists and is read to its end, and
    the invocation still returns a failure: the stream-error dictionary,
    with the [ValueError] of the token "(%)". *)
Theorem failure_without_read_error :
  Decimal.one_file "model.rpt" Sample.cut_short "model.rpt" =
    Text Sample.cut_short None /\
  Decimal.run Sample.cut_short = StreamError (ValueError "(%)").
Proof. split; reflexivity. Qed.


(** C4 as stated fails on [Sample.continuity_only]: extraction succeeds and
    no row is accepted, yet neither ranked table is an empty table. *)
Lemma empty_category_not_a_table :
  exists r, Decimal.run Sample.continuity_only = Success r /\
    accepted_flooded Decimal.parse Sample.continuity_only = [] /\
    accepted_surcharged Decimal.parse Sample.continuity_only = [] /\
    ~ (exists df, top_flooded_nodes r = Some df /\ rows df = []) /\
    ~ (exists df, top_surcharged_conduits r = Some df /\ rows df = []).
Proof.
  eexists. split; [reflexivity|]. split; [reflexivity|]. split; [reflexivity|].
  split; intros (df & H & _); discriminate.
Qed.

(** Floats without NaN are ordered by a strict weak order. *)
Lemma nan_free_weak_order (ks : list WithNaN.t) :
  (forall k, In k ks -> WithNaN.is_nan k = false) ->
  weak_order_on WithNaN.lt ks.
Proof.
  intros N. split.
  - intros a b Ha Hb. apply N in Ha, Hb.
    destruct a as [x|], b as [y|]; try discriminate. simpl.
    intros H. apply decimal_lt_false, Qlt_le_weak. now apply decimal_lt_iff.
  - intros a b c Ha Hb Hc. apply N in Ha, Hb, Hc.
    destruct a as [x|], b as [y|], c as [z|]; try discriminate. simpl.
    intros H1 H2. apply decimal_lt_false.
    apply decimal_lt_false in H1, H2. now apply (Qle_trans _ y).
Qed.



End SampleRuns.

(** ** The general statements at the sample reports *)

Section Instances.


(** The result for [Sample.continuity_only], a report without tables. *)
Lemma empty_category_is_none_witness :
  exists r, Decimal.run Sample.continuity_only = Success r /\
    top_flooded_nodes r = None /\ raw_flooded_list r = [] /\
    top_surcharged_conduits r = None /\ raw_surcharged_list r = [] /\
    continuity_error_runoff_percent r <> None.
Proof.
  eexists. split; [reflexivity|].
  destruct (empty_category_is_none Q Decimal.parse Decimal.lt
              (Decimal.one_file "model.rpt" Sample.continuity_only) "model.rpt" None
              Sample.continuity_only None _ eq_refl eq_refl)
    as (Hf & Hs & Nf & Ns & _ & _ & Hr).
  assert (Ef : accepted_flooded Decimal.parse Sample.continuity_only = []).
  { apply Nf. intros line H. simpl in H.
    repeat destruct H as [<-|H]; try reflexivity. contradiction. }
  assert (Es : accepted_surcharged Decimal.parse Sample.continuity_only = []).
  { apply Ns. intros line H. simpl in H.
    repeat destruct H as [<-|H]; try reflexivity. contradiction. }
  destruct (Hf Ef) as [H1 H2]. destruct (Hs Es) as [H3 H4].
  repeat (split; [assumption|]). apply Hr.
  exists "  Continuity Error (%) .....      -0.029".
  split; [simpl; auto | reflexivity].
Defined.


(** A blank line in the flooding table before any row. *)
Lemma blank_line_exit_guard_witness :
  blank "   " = true /\
  exists s', step Decimal.parse Decimal.in_flooding "   " = Ok s' /\
             in_flooding_table s' = true.
Proof.
  split; [reflexivity|].
  destruct (blank_line_exit_guard Q Decimal.parse Decimal.in_flooding "   " eq_refl)
    as (s' & St & _ & _ & _ & _ & Hin & _).
  exists s'. split; [exact St|]. now apply Hin.
Defined.


(** The flooding marker in the surcharge table, then a row for both. *)
Lemma overlapping_tables_witness :
  exists s1 s2,
    step Decimal.parse Decimal.in_surcharge "  Node Flooding Summary" = Ok s1 /\
    step Decimal.parse s1 "  C7  2.50  1.25  0.75  0.10  0.40" = Ok s2 /\
    in_flooding_table s1 = true /\ in_surcharge_table s1 = true /\
    map node (flooded_nodes s2) = ["C7"] /\
    map link (surcharged_links s2) = ["C7"].
Proof.
  eexists. eexists. split; [reflexivity|]. split; [reflexivity|].
  destruct (overlapping_tables Q Decimal.parse Decimal.in_surcharge _
              "  Node Flooding Summary" eq_refl eq_refl eq_refl)
    as (A & B & Hrow).
  split; [exact A|]. split; [exact B|].
  assert (L : 6 <= List.length (Py.split "  C7  2.50  1.25  0.75  0.10  0.40"))
    by (vm_compute; lia).
  assert (N1 : Py.item (Py.split "  C7  2.50  1.25  0.75  0.10  0.40") 0 <> "Node")
    by (vm_compute; discriminate).
  assert (N2 : Py.item (Py.split "  C7  2.50  1.25  0.75  0.10  0.40") 0 <> "Conduit")
    by (vm_compute; discriminate).
  destruct (Hrow "  C7  2.50  1.25  0.75  0.10  0.40" _ _ _ _ _ _
              eq_refl eq_refl eq_refl L eq_refl N1 N2
              eq_refl eq_refl eq_refl eq_refl eq_refl) as (Ef & Es & _).
  rewrite Ef, Es. split; reflexivity.
Defined.

End Instances.

(** ** More of the parser *)

Section MoreOfTheParser.

Variable F : Type.
Variable pyfloat : string -> option F.
Variable flt : F -> F -> bool.

Lemma surcharge_row_iff (parts : list string) (r : SurchargeRecord F) :
  surcharge_row pyfloat parts = Some r <-> surcharge_accepts pyfloat parts r.
Proof.
  unfold surcharge_row, surcharge_accepts. rewrite <- looks_numeric_iff.
  destruct (Nat.leb_spec 5 (List.length parts)) as [L|L]; simpl.
  2:{ split; [discriminate | intros [L' _]; lia]. }
  destruct (looks_numeric (Py.item parts 1)); simpl.
  2:{ split; [discriminate | now intros (_ & N & _)]. }
  destruct (String.eqb_spec (Py.item parts 0) "Conduit") as [E|E]; simpl.
  1:{ split; [discriminate | now intros (_ & _ & N & _)]. }
  destruct (pyfloat (Py.item parts 1)) as [a|].
  2:{ split; [discriminate | now intros (_ & _ & _ & _ & N & _)]. }
  destruct (pyfloat (Py.item parts 3)) as [b|].
  2:{ split; [discriminate | now intros (_ & _ & _ & _ & _ & N)]. }
  split.
  - intros [= <-]. simpl. now repeat split.
  - intros (_ & _ & _ & Hn & [= Ha] & [= Hb]).
    destruct r as [n m t]. simpl in *. now subst.
Qed.


(** X2.  The function returns a result exactly when the report exists, is
    read to its end without a failure, and none of its label lines ends in
    a token [float] rejects. *)
Theorem parse_success_iff (fs : string -> file) (rpt : string)
    (inp : option string) :
  (exists r, parse_swmm_results pyfloat flt fs rpt inp = Success r) <->
  (exists lines, fs rpt = Text lines None /\
     forall line, In line lines -> ~ malformed_label_line pyfloat line).
Proof.
  split.
  - intros [r H]. destruct (fs rpt) as [|lines failure] eqn:E.
    + unfold parse_swmm_results in H. rewrite E in H. discriminate.
    + destruct (parse_success F pyfloat flt fs rpt inp lines failure r E H)
        as (s & L & -> & _).
      exists lines. split; [reflexivity|].
      apply (loop_completes_iff F pyfloat lines initial). now exists s.
  - intros (lines & E & N).
    apply (loop_completes_iff F pyfloat lines initial) in N as [s L].
    exists (post_process flt s).
    unfold parse_swmm_results, scan, bind. now rewrite E, L.
Qed.

(** The pass fails at its first malformed label line. *)
Lemma loop_raise_first (lines : list string) (s : state F) (e : exn) :
  loop pyfloat s lines = Raise e ->
  exists pre line post tok,
    lines = pre ++ line :: post /\
    (exists s1, loop pyfloat s pre = Ok s1) /\
    Py.contains continuity_label line = true /\
    Py.last_item (Py.split line) = Some tok /\
    pyfloat tok = None /\ e = ValueError tok.
Proof.
  revert s. induction lines as [|line rest IH]; intros s; simpl; [discriminate|].
  unfold bind. destruct (step pyfloat s line) as [s1|e1] eqn:E.
  - intros H. destruct (IH s1 H) as (pre & l & post & tok & -> & [s2 L] & Hl).
    exists (line :: pre), l, post, tok. split; [reflexivity|].
    split; [|exact Hl]. exists s2. simpl. unfold bind. now rewrite E.
  - intros [= ->].
    apply step_raise, continuity_check_raises in E as [Lb (tok & T & P & ->)].
    exists [], line, rest, tok. repeat split; auto. now exists s.
Qed.

(** X3.  The stream-error dictionary has two causes and no other.  Either
    the file has a malformed label line, and the error is the [ValueError]
    of the last token of the first such line, whatever comes after it and
    however many figures were already recorded; or no label line is
    malformed and reading the file fails, and the error is that failure.
    [parts[-1]] never raises. *)
Theorem stream_error_iff (fs : string -> file) (rpt : string)
    (inp : option string) (e : exn) :
  parse_swmm_results pyfloat flt fs rpt inp = StreamError e <->
  exists lines failure,
    fs rpt = Text lines failure /\
    ((exists pre line post tok,
        lines = pre ++ line :: post /\
        (forall l, In l pre -> ~ malformed_label_line pyfloat l) /\
        Py.contains continuity_label line = true /\
        Py.last_item (Py.split line) = Some tok /\
        pyfloat tok = None /\ e = ValueError tok) \/
     ((forall l, In l lines -> ~ malformed_label_line pyfloat l) /\
      exists detail, failure = Some detail /\ e = OSError detail)).
Proof.
  unfold parse_swmm_results. split.
  - destruct (fs rpt) as [|lines failure]; [discriminate|].
    intros H. exists lines, failure. split; [reflexivity|].
    unfold scan, bind in H.
    destruct (loop pyfloat initial lines) as [s|e'] eqn:L.
    + right. split.
      * apply (loop_completes_iff F pyfloat lines initial). now exists s.
      * destruct failure as [detail|]; [|discriminate].
        injection H as <-. now exists detail.
    + injection H as ->. left.
      destruct (loop_raise_first lines initial e L)
        as (pre & line & post & tok & -> & Hp & Hl).
      exists pre, line, post, tok. split; [reflexivity|].
      split; [|exact Hl].
      now apply (loop_completes_iff F pyfloat pre initial).
  - intros (lines & failure & -> & [H|H]).
    + destruct H as (pre & line & post & tok & -> & N & Lb & T & P & ->).
      apply (loop_completes_iff F pyfloat pre initial) in N as [s1 L1].
      unfold scan.
      now rewrite (malformed_label_aborts F pyfloat pre post line tok initial s1).
    + destruct H as (N & detail & -> & ->).
      apply (loop_completes_iff F pyfloat lines initial) in N as [s L].
      unfold scan. now rewrite L.
Qed.

End MoreOfTheParser.

(** ** More of the ranking *)

Section MoreOfTheRanking.

Variable F : Type.
Variable pyfloat : string -> option F.
Variable flt : F -> F -> bool.

Lemma descending_app_cross {A K : Type} (lt : K -> K -> bool) (key : A -> K)
    (l1 l2 : list A) :
  descending lt key (l1 ++ l2) ->
  forall x y, In x l1 -> In y l2 -> lt (key x) (key y) = false.
Proof.
  unfold descending. induction l1 as [|a l1 IH]; simpl; intros S x y Hx Hy.
  - destruct Hx.
  - apply StronglySorted_inv in S as [S Fa]. destruct Hx as [<-|Hx].
    + rewrite Forall_forall in Fa. apply Fa, in_or_app. now right.
    + now apply IH.
Qed.

Lemma raw_lists_of_success (fs : string -> file) (rpt : string)
    (inp : option string) (lines : list string) (failure : option string)
    (r : result F) :
  fs rpt = Text lines failure ->
  parse_swmm_results pyfloat flt fs rpt inp = Success r ->
  raw_flooded_list r =
    firstn 5 (Py.sort_desc flt TotalFloodVol (accepted_flooded pyfloat lines)) /\
  raw_surcharged_list r =
    firstn 5 (Py.sort_desc flt HoursSurcharged (accepted_surcharged pyfloat lines)) /\
  top_flooded_nodes r =
    (if nonempty (accepted_flooded pyfloat lines) then
       Some {| columns := ["Node ID"; "Max Rate (CFS)"; "Total Volume (10^6 gal)"];
               rows := raw_flooded_list r |}
     else None) /\
  top_surcharged_conduits r =
    (if nonempty (accepted_surcharged pyfloat lines) then
       Some {| columns := ["Conduit ID"; "Hours Surcharged"; "Hours Above Normal"];
               rows := raw_surcharged_list r |}
     else None).
Proof.
  intros Hfs H. destruct (parse_success _ _ _ _ _ _ _ _ _ Hfs H) as (s & L & _ & ->).
  unfold accepted_flooded, accepted_surcharged. rewrite L.
  now repeat split.
Qed.

(** X4.  The rows kept in a ranked list are the largest ones: when [<]
    orders the accepted keys as a strict weak order, the accepted rows are
    the kept rows together with dropped rows none of which has a key above
    the key of a kept row. *)
Theorem top_rows_are_largest (fs : string -> file) (rpt : string)
    (inp : option string) (lines : list string) (failure : option string)
    (r : result F) :
  fs rpt = Text lines failure ->
  parse_swmm_results pyfloat flt fs rpt inp = Success r ->
  (weak_order_on flt (map TotalFloodVol (accepted_flooded pyfloat lines)) ->
   exists dropped,
     Permutation (raw_flooded_list r ++ dropped) (accepted_flooded pyfloat lines) /\
     forall x y, In x (raw_flooded_list r) -> In y dropped ->
                 flt (TotalFloodVol x) (TotalFloodVol y) = false) /\
  (weak_order_on flt (map HoursSurcharged (accepted_surcharged pyfloat lines)) ->
   exists dropped,
     Permutation (raw_surcharged_list r ++ dropped)
                 (accepted_surcharged pyfloat lines) /\
     forall x y, In x (raw_surcharged_list r) -> In y dropped ->
                 flt (HoursSurcharged x) (HoursSurcharged y) = false).
Proof.
  intros Hfs H.
  destruct (raw_lists_of_success fs rpt inp lines failure r Hfs H)
    as (-> & -> & _).
  split; intros W.
  - exists (skipn 5 (Py.sort_desc flt TotalFloodVol (accepted_flooded pyfloat lines))).
    split.
    + rewrite firstn_skipn. apply sort_desc_perm.
    + apply descending_app_cross. rewrite firstn_skipn.
      now apply sort_desc_sorted.
  - exists (skipn 5 (Py.sort_desc flt HoursSurcharged
                       (accepted_surcharged pyfloat lines))).
    split.
    + rewrite firstn_skipn. apply sort_desc_perm.
    + apply descending_app_cross. rewrite firstn_skipn.
      now apply sort_desc_sorted.
Qed.

(** X5.  A ranked list holds five rows, or all the accepted rows when
    there are fewer: its length is the smaller of 5 and the number of
    accepted rows, and with at most 5 accepted rows it is a rearrangement
    of them. *)
Theorem short_lists_returned_whole (fs : string -> file) (rpt : string)
    (inp : option string) (lines : list string) (failure : option string)
    (r : result F) :
  fs rpt = Text lines failure ->
  parse_swmm_results pyfloat flt fs rpt inp = Success r ->
  List.length (raw_flooded_list r) =
    Nat.min 5 (List.length (accepted_flooded pyfloat lines)) /\
  List.length (raw_surcharged_list r) =
    Nat.min 5 (List.length (accepted_surcharged pyfloat lines)) /\
  (List.length (accepted_flooded pyfloat lines) <= 5 ->
   Permutation (raw_flooded_list r) (accepted_flooded pyfloat lines)) /\
  (List.length (accepted_surcharged pyfloat lines) <= 5 ->
   Permutation (raw_surcharged_list r) (accepted_surcharged pyfloat lines)).
Proof.
  intros Hfs H.
  destruct (raw_lists_of_success fs rpt inp lines failure r Hfs H)
    as (-> & -> & _).
  pose proof (sort_desc_perm flt TotalFloodVol (accepted_flooded pyfloat lines))
    as Pf.
  pose proof (sort_desc_perm flt HoursSurcharged
                (accepted_surcharged pyfloat lines)) as Ps.
  split; [|split; [|split]].
  - now rewrite length_firstn, (Permutation_length Pf).
  - now rewrite length_firstn, (Permutation_length Ps).
  - intros L. rewrite firstn_all2; [exact Pf|].
    now rewrite (Permutation_length Pf).
  - intros L. rewrite firstn_all2; [exact Ps|].
    now rewrite (Permutation_length Ps).
Qed.

(** X6.  The table and the raw list of a category always agree: the table
    is [None] exactly when no row was accepted, and then the raw list is
    empty; otherwise the table has the three renamed columns and its rows
    are the raw list, which is not empty. *)
Theorem tables_agree_with_raw_lists (fs : string -> file) (rpt : string)
    (inp : option string) (lines : list string) (failure : option string)
    (r : result F) :
  fs rpt = Text lines failure ->
  parse_swmm_results pyfloat flt fs rpt inp = Success r ->
  (top_flooded_nodes r = None <-> accepted_flooded pyfloat lines = []) /\
  (top_flooded_nodes r = None -> raw_flooded_list r = []) /\
  (forall df, top_flooded_nodes r = Some df ->
     columns df = ["Node ID"; "Max Rate (CFS)"; "Total Volume (10^6 gal)"] /\
     rows df = raw_flooded_list r /\ rows df <> []) /\
  (top_surcharged_conduits r = None <-> accepted_surcharged pyfloat lines = []) /\
  (top_surcharged_conduits r = None -> raw_surcharged_list r = []) /\
  (forall df, top_surcharged_conduits r = Some df ->
     columns df = ["Conduit ID"; "Hours Surcharged"; "Hours Above Normal"] /\
     rows df = raw_surcharged_list r /\ rows df <> []).
Proof.
  intros Hfs H.
  destruct (raw_lists_of_success fs rpt inp lines failure r Hfs H)
    as (Rf & Rs & Tf & Ts).
  assert (Nf : raw_flooded_list r = [] <-> accepted_flooded pyfloat lines = []).
  { rewrite Rf. split; [|now intros ->]. intros E.
    pose proof (sort_desc_perm flt TotalFloodVol (accepted_flooded pyfloat lines))
      as P.
    destruct (Py.sort_desc flt TotalFloodVol (accepted_flooded pyfloat lines));
      [|discriminate].
    now apply Permutation_nil in P. }
  assert (Ns : raw_surcharged_list r = [] <-> accepted_surcharged pyfloat lines = []).
  { rewrite Rs. split; [|now intros ->]. intros E.
    pose proof (sort_desc_perm flt HoursSurcharged
                  (accepted_surcharged pyfloat lines)) as P.
    destruct (Py.sort_desc flt HoursSurcharged (accepted_surcharged pyfloat lines));
      [|discriminate].
    now apply Permutation_nil in P. }
  rewrite Tf, Ts.
  destruct (accepted_flooded pyfloat lines) as [|x xs] eqn:Ef;
    destruct (accepted_surcharged pyfloat lines) as [|y ys] eqn:Es; simpl;
    repeat match goal with |- _ /\ _ => split end;
    try (split; [reflexivity | discriminate]);
    try (split; [discriminate | discriminate]);
    try discriminate; try tauto;
    try (intros _; now apply Nf); try (intros _; now apply Ns);
    try (intros df [= <-]; simpl; repeat split;
         intros E; (apply Nf in E || apply Ns in E); discriminate).
Qed.

End MoreOfTheRanking.

(** ** White space around a line *)

Section Padding.

Lemma blank_all_chars (line : string) :
  blank line = Py.all_chars Py.isspace line.
Proof.
  destruct (Py.all_chars Py.isspace line) eqn:E.
  - now apply blank_iff.
  - destruct (blank line) eqn:B; [|reflexivity].
    apply blank_iff in B. congruence.
Qed.

Lemma blank_padded (ws1 ws2 line : string) :
  Py.all_chars Py.isspace ws1 = true ->
  Py.all_chars Py.isspace ws2 = true ->
  blank (ws1 ++ line ++ ws2)%string = blank line.
Proof.
  intros H1 H2. rewrite !blank_all_chars, !all_chars_app, H1, H2.
  now rewrite andb_true_r.
Qed.

Lemma split_pad_left (ws s : string) :
  Py.all_chars Py.isspace ws = true -> Py.split (ws ++ s)%string = Py.split s.
Proof.
  induction ws as [|c ws IH]; simpl; [reflexivity|].
  intros H. apply andb_true_iff in H as [Hc Hw]. rewrite Hc. now apply IH.
Qed.

Lemma split_pad_right (ws s : string) :
  Py.all_chars Py.isspace ws = true -> Py.split (s ++ ws)%string = Py.split s.
Proof.
  intros Hw. induction s as [|c s IH].
  - simpl. now apply split_all_space.
  - change (String c s ++ ws)%string with (String c (s ++ ws)%string).
    cbn [Py.split]. destruct (Py.isspace c); [exact IH|].
    rewrite IH. destruct s as [|c' s'].
    + simpl. destruct ws as [|d w]; [reflexivity|].
      simpl in Hw. apply andb_true_iff in Hw as [Hd _]. now rewrite Hd.
    + reflexivity.
Qed.

Lemma contains_pad_left (c : ascii) (needle ws s : string) :
  Py.isspace c = false ->
  Py.all_chars Py.isspace ws = true ->
  Py.contains (String c needle) (ws ++ s)%string = Py.contains (String c needle) s.
Proof.
  intros Hc. induction ws as [|d ws IH]; [reflexivity|].
  intros H. simpl in H. apply andb_true_iff in H as [Hd Hw].
  change (String d ws ++ s)%string with (String d (ws ++ s)%string).
  cbn [Py.contains prefix].
  destruct (ascii_dec c d) as [->|_]; [congruence|]. now apply IH.
Qed.

Lemma prefix_in_space (needle ws : string) :
  ends_in_ink needle = true ->
  Py.all_chars Py.isspace ws = true ->
  prefix needle ws = false.
Proof.
  revert ws. induction needle as [|a n IH]; intros ws E H; [discriminate|].
  destruct ws as [|d w]; [reflexivity|].
  simpl in H. apply andb_true_iff in H as [Hd Hw].
  cbn [prefix]. destruct (ascii_dec a d) as [->|_]; [|reflexivity].
  destruct n as [|b n'].
  - simpl in E. now rewrite Hd in E.
  - now apply IH.
Qed.

Lemma prefix_empty (s : string) : prefix EmptyString s = true.
Proof. now destruct s. Qed.

Lemma prefix_pad_right (needle ws s : string) :
  ends_in_ink needle = true ->
  Py.all_chars Py.isspace ws = true ->
  prefix needle (s ++ ws)%string = prefix needle s.
Proof.
  intros E Hw. revert needle E. induction s as [|b s IH]; intros needle E.
  - simpl. rewrite (prefix_in_space _ _ E Hw). now destruct needle.
  - destruct needle as [|a n]; [discriminate|].
    change (String b s ++ ws)%string with (String b (s ++ ws)%string).
    cbn [prefix]. destruct (ascii_dec a b); [|reflexivity].
    destruct n as [|a' n']; [now rewrite !prefix_empty|]. now apply IH.
Qed.

Lemma contains_pad_right (c : ascii) (needle ws s : string) :
  Py.isspace c = false ->
  ends_in_ink (String c needle) = true ->
  Py.all_chars Py.isspace ws = true ->
  Py.contains (String c needle) (s ++ ws)%string = Py.contains (String c needle) s.
Proof.
  intros Hc E Hw. induction s as [|b s IH].
  - simpl (EmptyString ++ ws)%string.
    now rewrite (contains_all_space c needle ws Hc Hw).
  - change (String b s ++ ws)%string with (String b (s ++ ws)%string).
    cbn [Py.contains].
    change (String b (s ++ ws)%string) with (String b s ++ ws)%string.
    now rewrite (prefix_pad_right _ _ _ E Hw), IH.
Qed.

Lemma contains_padded (c : ascii) (needle ws1 ws2 s : string) :
  Py.isspace c = false ->
  ends_in_ink (String c needle) = true ->
  Py.all_chars Py.isspace ws1 = true ->
  Py.all_chars Py.isspace ws2 = true ->
  Py.contains (String c needle) (ws1 ++ s ++ ws2)%string =
  Py.contains (String c needle) s.
Proof.
  intros Hc E H1 H2.
  now rewrite contains_pad_left, contains_pad_right.
Qed.

Lemma split_padded (ws1 ws2 s : string) :
  Py.all_chars Py.isspace ws1 = true ->
  Py.all_chars Py.isspace ws2 = true ->
  Py.split (ws1 ++ s ++ ws2)%string = Py.split s.
Proof. intros H1 H2. now rewrite split_pad_left, split_pad_right. Qed.

Lemma label_padded (ws1 ws2 s : string) :
  Py.all_chars Py.isspace ws1 = true ->
  Py.all_chars Py.isspace ws2 = true ->
  Py.contains continuity_label (ws1 ++ s ++ ws2)%string =
  Py.contains continuity_label s.
Proof. intros H1 H2. now apply contains_padded. Qed.

Lemma flooding_marker_padded (ws1 ws2 s : string) :
  Py.all_chars Py.isspace ws1 = true ->
  Py.all_chars Py.isspace ws2 = true ->
  Py.contains flooding_marker (ws1 ++ s ++ ws2)%string =
  Py.contains flooding_marker s.
Proof. intros H1 H2. now apply contains_padded. Qed.

Lemma surcharge_marker_padded (ws1 ws2 s : string) :
  Py.all_chars Py.isspace ws1 = true ->
  Py.all_chars Py.isspace ws2 = true ->
  Py.contains surcharge_marker (ws1 ++ s ++ ws2)%string =
  Py.contains surcharge_marker s.
Proof. intros H1 H2. now apply contains_padded. Qed.

Variable F : Type.
Variable pyfloat : string -> option F.

(** X10.  White space before and after a line, such as its indentation and
    the newline that reading the file leaves at its end, never changes what
    the line does: the loop body gives the same state or the same
    exception. *)
Theorem white_space_around_line (s : state F) (ws1 ws2 line : string) :
  Py.all_chars Py.isspace ws1 = true ->
  Py.all_chars Py.isspace ws2 = true ->
  step pyfloat s (ws1 ++ line ++ ws2)%string = step pyfloat s line.
Proof.
  intros H1 H2.
  unfold step, continuity_check, tables, surcharge_part, flooding_data,
    surcharge_data.
  rewrite !(split_padded _ _ _ H1 H2), !(blank_padded _ _ _ H1 H2).
  rewrite (label_padded _ _ _ H1 H2), (flooding_marker_padded _ _ _ H1 H2),
    (surcharge_marker_padded _ _ _ H1 H2).
  reflexivity.
Qed.

End Padding.

(** ** More of the table states *)

Section MoreOfTheTables.

Variable F : Type.
Variable pyfloat : string -> option F.

(** X7.  A line with the surcharge marker and without the flooding marker
    ends the flooding table and opens the surcharge table.  It adds no
    surcharge row, but while the flooding table is active the line is
    first offered to the flooding extractor.  After it no flooding row is
    collected until a line carries the flooding marker. *)
Theorem surcharge_marker_closes_flooding (s s1 : state F) (marker : string) :
  Py.contains flooding_marker marker = false ->
  Py.contains surcharge_marker marker = true ->
  step pyfloat s marker = Ok s1 ->
  in_flooding_table s1 = false /\
  in_surcharge_table s1 = true /\
  surcharged_links s1 = surcharged_links s /\
  flooded_nodes s1 =
    flooded_nodes s ++
    (if in_flooding_table s then opt_list (flood_row pyfloat (Py.split marker))
     else []) /\
  forall rest s2,
    (forall l, In l rest -> Py.contains flooding_marker l = false) ->
    loop pyfloat s1 rest = Ok s2 ->
    flooded_nodes s2 = flooded_nodes s1 /\ in_flooding_table s2 = false.
Proof.
  intros M1 M2 H. apply step_ok in H as (s0 & C & ->).
  apply continuity_check_tables in C as (I0 & J0 & E0 & G0).
  assert (NB : blank marker = false).
  { destruct (blank marker) eqn:B; [|reflexivity].
    apply blank_no_surcharge_marker in B. congruence. }
  assert (If : in_flooding_table (tables pyfloat s0 marker) = false).
  { rewrite tables_in_flooding, M1, M2, NB. now rewrite andb_false_r. }
  split; [exact If|]. split; [|split; [|split]].
  - rewrite tables_in_surcharge, M1, M2, NB. now rewrite andb_false_r.
  - rewrite tables_surcharged, M1, M2, G0. apply app_nil_r.
  - now rewrite tables_flooded, M1, I0, E0.
  - intros rest s2 N L.
    destruct (loop_no_flooding_marker F pyfloat rest _ s2 N If L) as [A B].
    now split.
Qed.

(** X8.  With both tables active and a row in each accumulator, a blank
    line closes the flooding table only, because its [continue] skips the
    surcharge test; the surcharge table is closed by the next blank line. *)
Theorem blank_closes_one_table (s : state F) (b1 b2 : string) :
  in_flooding_table s = true ->
  in_surcharge_table s = true ->
  flooded_nodes s <> [] ->
  surcharged_links s <> [] ->
  blank b1 = true ->
  blank b2 = true ->
  exists s1 s2,
    step pyfloat s b1 = Ok s1 /\
    in_flooding_table s1 = false /\ in_surcharge_table s1 = true /\
    step pyfloat s1 b2 = Ok s2 /\
    in_flooding_table s2 = false /\ in_surcharge_table s2 = false.
Proof.
  intros I J Nf Ns B1 B2.
  exists (tables pyfloat s b1), (tables pyfloat (tables pyfloat s b1) b2).
  assert (Es : surcharged_links (tables pyfloat s b1) = surcharged_links s).
  { rewrite tables_surcharged, (blank_split _ B1), surcharge_row_nil. simpl.
    destruct (_ && _); apply app_nil_r. }
  assert (I1 : in_flooding_table (tables pyfloat s b1) = false).
  { now rewrite tables_in_flooding, (blank_no_flooding_marker _ B1), I, B1,
      (nonempty_true _ Nf). }
  assert (J1 : in_surcharge_table (tables pyfloat s b1) = true).
  { now rewrite tables_in_surcharge, (blank_no_flooding_marker _ B1), I, B1,
      (nonempty_true _ Nf). }
  split; [apply step_no_label, blank_no_label, B1|].
  split; [exact I1|]. split; [exact J1|].
  split; [apply step_no_label, blank_no_label, B2|].
  rewrite tables_in_flooding, tables_in_surcharge,
    (blank_no_flooding_marker _ B2), (blank_no_surcharge_marker _ B2),
    I1, J1, B2, Es, (nonempty_true _ Ns).
  now split.
Qed.

(** X9.  Outside the tables a line without the label and without a marker
    changes nothing, whatever it looks like: rows that come after a table
    was closed are not collected. *)
Theorem free_text_changes_nothing (s : state F) (lines : list string) :
  in_flooding_table s = false ->
  in_surcharge_table s = false ->
  (forall l, In l lines ->
     Py.contains continuity_label l = false /\
     Py.contains flooding_marker l = false /\
     Py.contains surcharge_marker l = false) ->
  loop pyfloat s lines = Ok s.
Proof.
  intros I J. induction lines as [|line rest IH]; intros N; [reflexivity|].
  destruct (N line (or_introl eq_refl)) as (Lb & M1 & M2).
  simpl. rewrite (step_no_label F pyfloat s line Lb).
  unfold tables, surcharge_part. rewrite M1, M2, I, J. simpl.
  apply IH. intros l Hl. apply N. now right.
Qed.

End MoreOfTheTables.

(** ** The agent tool *)

Section AgentFacts.

Variable F : Type.
Variable pyfloat : string -> option F.
Variable flt : F -> F -> bool.
Variable str_float : F -> string.
Variable repr_str : string -> string.

Lemma falsy_iff (s : string) : Py.falsy s = true <-> s = EmptyString.
Proof. destruct s; simpl; split; congruence. Qed.

(** X11.  The tool gives one of three answers.  For an empty or missing
    path it is the path error, and the parser is not called.  When the
    parser returns the stream-error dictionary it is "Failed to parse
    model: " followed by the message of that dictionary.  Otherwise the
    parser returned a result and the answer is the summary of it, joined
    by newlines.  The session is written in the third case only, and the
    not-found dictionary of the parser never reaches the formatter. *)
Theorem analyze_three_answers (fs : string -> file)
    (session : option (ui_session F)) (rpt : string) (inp : option string) :
  ((rpt = EmptyString \/ fs rpt = Missing) /\
   analyze_swmm_report pyfloat flt str_float repr_str fs session rpt inp =
     (path_error rpt, session)) \/
  (exists e,
     rpt <> EmptyString /\
     parse_swmm_results pyfloat flt fs rpt inp = StreamError e /\
     analyze_swmm_report pyfloat flt str_float repr_str fs session rpt inp =
       (("Failed to parse model: Error during large file stream: "
         ++ exn_str repr_str e)%string, session)) \/
  (exists r,
     rpt <> EmptyString /\
     parse_swmm_results pyfloat flt fs rpt inp = Success r /\
     analyze_swmm_report pyfloat flt str_float repr_str fs session rpt inp =
       (String.concat newline (summary str_float repr_str (Success r)),
        match session with
        | Some _ => Some {| latest_flooded_df := top_flooded_nodes r;
                            latest_surcharged_df := top_surcharged_conduits r |}
        | None => None
        end)).
Proof.
  unfold analyze_swmm_report, path_exists.
  destruct (Py.falsy rpt) eqn:Fa; simpl.
  - left. split; [|reflexivity]. left. now apply falsy_iff.
  - assert (N : rpt <> EmptyString).
    { intros E. apply falsy_iff in E. congruence. }
    destruct (fs rpt) as [|lines failure] eqn:E; simpl.
    + left. split; [now right | reflexivity].
    + right.
      destruct (parse_swmm_results pyfloat flt fs rpt inp) as [p|e|r] eqn:P.
      * unfold parse_swmm_results in P. rewrite E in P.
        now destruct (scan pyfloat lines failure).
      * left. exists e. now repeat split.
      * right. exists r. now repeat split.
Qed.

Lemma flooded_bullet_not_placeholder (data : FloodRecord F) (s : string) :
  flooded_bullet str_float repr_str data = s ->
  s <> "- No flooding data found." /\ s <> "- No capacity data found.".
Proof. intros <-. unfold flooded_bullet. split; simpl; discriminate. Qed.

Lemma surcharged_bullet_not_placeholder (data : SurchargeRecord F) (s : string) :
  surcharged_bullet str_float repr_str data = s ->
  s <> "- No flooding data found." /\ s <> "- No capacity data found.".
Proof. intros <-. unfold surcharged_bullet. split; simpl; discriminate. Qed.


(** X13.  After a successful analysis in a Chainlit context the session
    holds the two tables of the result.  The front end then shows the
    flooding chart exactly when a flooding row was accepted, and logs as
    count the smaller of 5 and the number of accepted rows; a table in the
    session is never empty, so the test [not df.empty] of the front end
    never decides.  The same holds of the surcharge table. *)
Theorem front_end_counts (fs : string -> file) (u : ui_session F)
    (rpt : string) (inp : option string) (lines : list string)
    (failure : option string) (r : result F) :
  rpt <> EmptyString ->
  fs rpt = Text lines failure ->
  parse_swmm_results pyfloat flt fs rpt inp = Success r ->
  exists u',
    snd (analyze_swmm_report pyfloat flt str_float repr_str fs (Some u) rpt inp)
      = Some u' /\
    latest_flooded_df u' = top_flooded_nodes r /\
    latest_surcharged_df u' = top_surcharged_conduits r /\
    shown (latest_flooded_df u') = nonempty (accepted_flooded pyfloat lines) /\
    shown (latest_surcharged_df u') = nonempty (accepted_surcharged pyfloat lines) /\
    logged_count (latest_flooded_df u') =
      Nat.min 5 (List.length (accepted_flooded pyfloat lines)) /\
    logged_count (latest_surcharged_df u') =
      Nat.min 5 (List.length (accepted_surcharged pyfloat lines)) /\
    (forall df, latest_flooded_df u' = Some df -> df_empty df = false) /\
    (forall df, latest_surcharged_df u' = Some df -> df_empty df = false).
Proof.
  intros N Hfs H.
  destruct (analyze_three_answers fs (Some u) rpt inp)
    as [[[E|E] _] | [(e & _ & P & _) | (r' & _ & P & A)]]; try congruence.
  rewrite H in P. injection P as <-. rewrite A. simpl.
  eexists. split; [reflexivity|]. simpl.
  destruct (raw_lists_of_success F pyfloat flt fs rpt inp lines failure r Hfs H)
    as (_ & _ & Tf & Ts).
  destruct (short_lists_returned_whole F pyfloat flt fs rpt inp lines failure r
              Hfs H) as (Lf & Ls & _).
  rewrite Tf, Ts. unfold shown, logged_count, df_empty, df_len. simpl.
  split; [reflexivity|]. split; [reflexivity|].
  destruct (accepted_flooded pyfloat lines) as [|x xs];
    destruct (accepted_surcharged pyfloat lines) as [|y ys]; simpl in *;
    destruct (raw_flooded_list r); destruct (raw_surcharged_list r);
    simpl in *; try discriminate;
    repeat match goal with |- _ /\ _ => split end;
    try reflexivity; try assumption;
    try (intros df [= <-]; reflexivity); try (intros df; discriminate).
Qed.

End AgentFacts.

(** ** The uploaded files and the agent node *)

Section FrontEndFacts.

Lemma rpt_is_not_inp (n : string) :
  endswith ".rpt" n = true -> endswith ".inp" n = false.
Proof.
  induction n as [|c n IH]; [discriminate|].
  cbn [endswith].
  destruct (String.eqb_spec (String c n) ".rpt") as [E|_].
  - intros _. injection E as -> ->. reflexivity.
  - destruct (String.eqb_spec (String c n) ".inp") as [E|_].
    + injection E as -> ->. intros H. discriminate H.
    + exact IH.
Qed.

Lemma uploaded_paths_snoc (elements : list element) (e : element) :
  uploaded_paths (elements ++ [e]) = pick (uploaded_paths elements) e.
Proof. unfold uploaded_paths. now rewrite fold_left_app. Qed.

Lemma last_path_snoc (test : string -> bool) (elements : list element)
    (e : element) :
  last_path test (elements ++ [e]) =
  if test (name e) then path e else last_path test elements.
Proof.
  unfold last_path. rewrite rev_app_distr. simpl.
  now destruct (test (name e)).
Qed.

(** X14.  The report announced to the agent is the last uploaded element
    whose name ends in ".rpt", and the input file the last one whose name
    ends in ".inp".  The message is only ever extended at its end, and it
    is left as it is when that report has no path, whatever else was
    uploaded: an input file alone is never announced. *)
Theorem uploaded_files_announced (content : string) (elements : list element) :
  fst (uploaded_paths elements) = last_path (endswith ".rpt") elements /\
  snd (uploaded_paths elements) = last_path (endswith ".inp") elements /\
  (truthy (last_path (endswith ".rpt") elements) = false ->
   with_file_context content elements = content) /\
  (exists suffix,
     with_file_context content elements = (content ++ suffix)%string /\
     (truthy (last_path (endswith ".rpt") elements) = true ->
      suffix <> EmptyString)).
Proof.
  assert (P : fst (uploaded_paths elements) = last_path (endswith ".rpt") elements /\
              snd (uploaded_paths elements) = last_path (endswith ".inp") elements).
  { induction elements as [|e elements IH] using rev_ind; [now split|].
    rewrite uploaded_paths_snoc, !last_path_snoc. destruct IH as [<- <-].
    unfold pick. destruct (endswith ".rpt" (name e)) eqn:R; simpl.
    - now rewrite (rpt_is_not_inp _ R).
    - now destruct (endswith ".inp" (name e)). }
  destruct P as [P1 P2]. split; [exact P1|]. split; [exact P2|].
  rewrite <- P1. unfold with_file_context.
  destruct (uploaded_paths elements) as [rpt inp]. simpl.
  split.
  - now intros ->.
  - destruct (truthy rpt).
    + eexists. split; [reflexivity|]. intros _.
      unfold newline. simpl. discriminate.
    + exists EmptyString. split; [|discriminate].
      clear. induction content as [|c content IH]; simpl; congruence.
Qed.

Variable system_prompt_text : string.
Variable invoke : list message -> message.

(** X15.  The agent node fails with [IndexError] on an empty history.
    Otherwise it answers with the single message the model gives for a
    history that starts with a system message: the history itself when it
    already starts with one, and then the system prompt of the assistant is
    not used, or the history behind that prompt.  Preparing a prepared
    history changes nothing, so the prompt is never added twice. *)
Theorem call_model_sends_system_first (messages : list message) :
  (messages = [] ->
   call_model system_prompt_text invoke messages = Raise IndexError) /\
  (forall m ms, messages = m :: ms ->
     exists sent,
       with_system_prompt system_prompt_text messages = Ok sent /\
       call_model system_prompt_text invoke messages = Ok [invoke sent] /\
       (exists first rest, sent = first :: rest /\ is_system first = true) /\
       (is_system m = true -> sent = messages) /\
       (is_system m = false ->
        sent = SystemMessage system_prompt_text :: messages) /\
       with_system_prompt system_prompt_text sent = Ok sent).
Proof.
  split; [now intros ->|].
  intros m ms ->. unfold call_model, with_system_prompt, bind.
  destruct (is_system m) eqn:S.
  - exists (m :: ms). repeat split; try congruence.
    + now exists m, ms.
    + now rewrite S.
  - exists (SystemMessage system_prompt_text :: m :: ms).
    repeat split; try congruence.
    now exists (SystemMessage system_prompt_text), (m :: ms).
Qed.

End FrontEndFacts.

(** ** The further statements at the sample reports *)

Section MoreInstances.


(** [Sample.two_tables] gives a result, so its marker line is not a
    malformed label line. *)
Lemma parse_success_iff_witness :
  (exists r, Decimal.run Sample.two_tables = Success r) /\
  ~ malformed_label_line Decimal.parse "  Conduit Surcharge Summary".
Proof.
  assert (S : exists r, Decimal.run Sample.two_tables = Success r)
    by (eexists; reflexivity).
  split; [exact S|].
  destruct (proj1 (parse_success_iff Q Decimal.parse Decimal.lt
                     (Decimal.one_file "model.rpt" Sample.two_tables)
                     "model.rpt" None) S) as (lines & E & N).
  injection E as <-. apply N. simpl. tauto.
Defined.

(** A failing disk under [Sample.continuity_only], and the malformed line
    of [Sample.overflowed_field]. *)
Lemma stream_error_iff_witness :
  parse_swmm_results Decimal.parse Decimal.lt
    (failing_disk Sample.continuity_only) "model.rpt" None =
    StreamError (OSError "[Errno 5] Input/output error") /\
  parse_swmm_results Decimal.parse Decimal.lt
    (failing_disk Sample.overflowed_field) "model.rpt" None =
    StreamError (ValueError "********").
Proof.
  split.
  - apply (stream_error_iff Q Decimal.parse Decimal.lt).
    exists Sample.continuity_only, (Some "[Errno 5] Input/output error").
    split; [reflexivity|]. right. split.
    + intros l H (Lb & tok & T & P). simpl in H.
      repeat destruct H as [<-|H]; try discriminate; try contradiction.
      * vm_compute in T. injection T as <-. discriminate.
      * vm_compute in T. injection T as <-. discriminate.
    + now eexists.
  - apply (stream_error_iff Q Decimal.parse Decimal.lt).
    exists Sample.overflowed_field, (Some "[Errno 5] Input/output error").
    split; [reflexivity|]. left.
    exists [], "  Continuity Error (%) .....      ********",
      (tl Sample.overflowed_field), "********".
    split; [reflexivity|]. split; [intros l []|]. now repeat split.
Defined.

(** The two rows dropped from the flooding list of [Sample.two_tables]. *)
Lemma top_rows_are_largest_witness :
  exists r dropped,
    Decimal.run Sample.two_tables = Success r /\
    Permutation (raw_flooded_list r ++ dropped)
                (accepted_flooded Decimal.parse Sample.two_tables) /\
    forall x y, In x (raw_flooded_list r) -> In y dropped ->
                Decimal.lt (TotalFloodVol x) (TotalFloodVol y) = false.
Proof.
  eexists.
  destruct (top_rows_are_largest Q Decimal.parse Decimal.lt
              (Decimal.one_file "model.rpt" Sample.two_tables) "model.rpt" None
              Sample.two_tables None _ eq_refl eq_refl) as [Hf _].
  destruct (Hf (decimal_weak_order _)) as (dropped & P & C).
  exists dropped. split; [reflexivity|]. split; [exact P | exact C].
Defined.

(** Seven accepted flooding rows give five, two surcharge rows give two. *)
Lemma short_lists_returned_whole_witness :
  exists r,
    Decimal.run Sample.two_tables = Success r /\
    List.length (raw_flooded_list r) = 5 /\
    Permutation (raw_surcharged_list r)
                (accepted_surcharged Decimal.parse Sample.two_tables).
Proof.
  eexists. split; [reflexivity|].
  destruct (short_lists_returned_whole Q Decimal.parse Decimal.lt
              (Decimal.one_file "model.rpt" Sample.two_tables) "model.rpt" None
              Sample.two_tables None _ eq_refl eq_refl) as (Lf & _ & _ & Ps).
  split; [rewrite Lf; reflexivity|]. apply Ps. vm_compute. lia.
Defined.

(** The tables of [Sample.repeated_section]: flooding rows, no surcharge. *)
Lemma tables_agree_with_raw_lists_witness :
  exists r,
    Decimal.run Sample.repeated_section = Success r /\
    top_surcharged_conduits r = None /\
    exists df, top_flooded_nodes r = Some df /\ rows df = raw_flooded_list r.
Proof.
  eexists. split; [reflexivity|].
  destruct (tables_agree_with_raw_lists Q Decimal.parse Decimal.lt
              (Decimal.one_file "model.rpt" Sample.repeated_section) "model.rpt"
              None Sample.repeated_section None _ eq_refl eq_refl)
    as (_ & _ & Hf & Hs & _).
  split; [apply Hs; reflexivity|].
  eexists. split; [reflexivity|]. now apply Hf.
Defined.

(** The surcharge marker after the first flooding row of
    [Sample.repeated_section]. *)
Lemma surcharge_marker_closes_flooding_witness :
  exists s1,
    step Decimal.parse (Decimal.state_after (firstn 2 Sample.repeated_section))
         "  Conduit Surcharge Summary" = Ok s1 /\
    in_flooding_table s1 = false /\ in_surcharge_table s1 = true /\
    map node (flooded_nodes s1) = ["J12"].
Proof.
  eexists. split; [reflexivity|].
  destruct (surcharge_marker_closes_flooding Q Decimal.parse
              (Decimal.state_after (firstn 2 Sample.repeated_section)) _
              "  Conduit Surcharge Summary" eq_refl eq_refl eq_refl)
    as (A & B & _ & D & _).
  split; [exact A|]. split; [exact B|]. now rewrite D.
Defined.

(** Two blank lines after [Sample.overlap]. *)
Lemma blank_closes_one_table_witness :
  exists s1 s2,
    step Decimal.parse (Decimal.state_after Sample.overlap) "" = Ok s1 /\
    in_flooding_table s1 = false /\ in_surcharge_table s1 = true /\
    step Decimal.parse s1 "" = Ok s2 /\
    in_flooding_table s2 = false /\ in_surcharge_table s2 = false.
Proof.
  apply (blank_closes_one_table Q Decimal.parse
           (Decimal.state_after Sample.overlap) "" "");
    try reflexivity; vm_compute; discriminate.
Defined.

(** A data row and a heading read before any marker. *)
Lemma free_text_changes_nothing_witness :
  loop Decimal.parse initial
    ["  J12  5.00  12.5  0  0  0.250"; "  Analysis Options"] = Ok initial.
Proof.
  apply (free_text_changes_nothing Q Decimal.parse); try reflexivity.
  intros l H. simpl in H.
  repeat destruct H as [<-|H]; try contradiction; now repeat split.
Defined.

(** The row of J12 with its indentation and its newline. *)
Lemma white_space_around_line_witness :
  step Decimal.parse Decimal.in_flooding
    ("  " ++ "J12  5.00  12.5  0  0  0.250" ++ newline)%string =
  step Decimal.parse Decimal.in_flooding "J12  5.00  12.5  0  0  0.250".
Proof.
  apply (white_space_around_line Q Decimal.parse); reflexivity.
Defined.

(** The answer for [Sample.no_number]. *)
Lemma analyze_three_answers_witness :
  Render.analyze Sample.no_number None =
  ("Failed to parse model: Error during large file stream: could not convert string to float: 'n/a'",
   None).
Proof.
  destruct (analyze_three_answers Q Decimal.parse Decimal.lt Render.str_float
              Render.repr_str (Decimal.one_file "model.rpt" Sample.no_number)
              None "model.rpt" None)
    as [[[E|E] _] | [(e & _ & P & A) | (r & _ & P & _)]]; try discriminate.
  unfold Render.analyze. rewrite A.
  vm_compute in P. injection P as <-. reflexivity.
Defined.


(** The session after the analysis of [Sample.two_tables]. *)
Lemma front_end_counts_witness :
  exists u',
    snd (Render.analyze Sample.two_tables (Some cleared)) = Some u' /\
    shown (latest_flooded_df u') = true /\
    logged_count (latest_flooded_df u') = 5 /\
    logged_count (latest_surcharged_df u') = 2.
Proof.
  destruct (front_end_counts Q Decimal.parse Decimal.lt Render.str_float
              Render.repr_str (Decimal.one_file "model.rpt" Sample.two_tables)
              cleared "model.rpt" None Sample.two_tables None _
              ltac:(discriminate) eq_refl eq_refl)
    as (u' & S & _ & _ & Sf & _ & Cf & Cs & _).
  exists u'. split; [exact S|]. split; [exact Sf|]. split; [exact Cf | exact Cs].
Defined.

(** Of [three_uploads] the last report and the input file are announced. *)
Lemma uploaded_files_announced_witness :
  uploaded_paths three_uploads = (Some "/tmp/c", Some "/tmp/b").
Proof.
  destruct (uploaded_files_announced "Summarise" three_uploads) as (A & B & _).
  rewrite (surjective_pairing (uploaded_paths three_uploads)), A, B.
  reflexivity.
Defined.

(** A history of one human message. *)
Lemma call_model_sends_system_first_witness :
  call_model "You are the assistant." (fun _ => AIMessage "ok" [])
    [HumanMessage "Summarise"] = Ok [AIMessage "ok" []].
Proof.
  destruct (call_model_sends_system_first "You are the assistant."
              (fun _ => AIMessage "ok" []) [HumanMessage "Summarise"])
    as [_ H].
  destruct (H _ _ eq_refl) as (sent & _ & C & _). exact C.
Defined.

End MoreInstances.

(** ** The figures and the label lines *)

Section FiguresFacts.

Variable F : Type.
Variable pyfloat : string -> option F.
Variable flt : F -> F -> bool.

Lemma continuity_values_count (lines : list string) (s s' : state F) :
  loop pyfloat s lines = Ok s' ->
  List.length (continuity_values pyfloat lines) =
  List.length (filter (Py.contains continuity_label) lines).
Proof.
  revert s. induction lines as [|line rest IH]; intros s; simpl; [reflexivity|].
  unfold bind. destruct (step pyfloat s line) as [s1|e] eqn:E; [|discriminate].
  intros H. rewrite length_app, (IH s1 H).
  apply step_ok in E as (s0 & C & _). revert C.
  unfold continuity_check, continuity_value.
  destruct (Py.contains continuity_label line); [|reflexivity].
  destruct (Py.last_item (Py.split line)) as [tok|]; [|discriminate].
  now destruct (pyfloat tok).
Qed.

(** X16.  In a result the figures tell how many lines carry the label: the
    runoff figure is [None] exactly when no line does, the routing figure
    exactly when at most one does, and every label line has given its
    value. *)
Theorem figures_tell_label_lines (fs : string -> file) (rpt : string)
    (inp : option string) (lines : list string) (failure : option string)
    (r : result F) :
  fs rpt = Text lines failure ->
  parse_swmm_results pyfloat flt fs rpt inp = Success r ->
  List.length (continuity_values pyfloat lines) =
    List.length (filter (Py.contains continuity_label) lines) /\
  (continuity_error_runoff_percent r = None <->
   List.length (filter (Py.contains continuity_label) lines) = 0) /\
  (continuity_error_routing_percent r = None <->
   List.length (filter (Py.contains continuity_label) lines) <= 1).
Proof.
  intros Hfs H.
  destruct (parse_success F pyfloat flt fs rpt inp lines failure r Hfs H)
    as (s & L & _ & ->).
  destruct (positional_figures F pyfloat lines s L) as [R0 R1].
  pose proof (continuity_values_count lines initial s L) as C.
  split; [exact C|]. rewrite <- C. unfold post_process.
  cbn [continuity_error_runoff_percent continuity_error_routing_percent].
  rewrite R0, R1, !nth_error_None. split; [lia | reflexivity].
Qed.

End FiguresFacts.

(** The two label lines of [Sample.continuity_only]. *)
Lemma figures_tell_label_lines_witness :
  exists r,
    Decimal.run Sample.continuity_only = Success r /\
    continuity_error_routing_percent r <> None.
Proof.
  eexists. split; [reflexivity|].
  destruct (figures_tell_label_lines Q Decimal.parse Decimal.lt
              (Decimal.one_file "model.rpt" Sample.continuity_only) "model.rpt"
              None Sample.continuity_only None _ eq_refl eq_refl)
    as (_ & _ & R).
  intros E. apply R in E. vm_compute in E. lia.
Defined.

